(** * Payment-event reconciliation of the rental back end

    A shallow embedding of the two serverless functions that carry a payment
    provider event into the document database:

    - [0011_fetch_stripe_webhook.js]: the signature-verified webhook with its
      event classifier [updateStripePaymentHandler] and the recorder
      [updateDb], which posts a normalised record to the second function;
    - [0012_update_stripe_payments.js]: the update-payment endpoint, which
      authorises the call, merge-writes the record into one of two
      collections and posts a notification email for metadata-bearing
      records.

    JavaScript values are embedded as a first-order datatype, effects
    (console lines, database calls, outbound HTTP requests) are recorded in a
    trace carried by a small state-and-exception monad, and the collaborators
    that live outside the repository (signature verification, the network,
    the database's acceptance of a write, the clock) are section variables.

    The functions that talk to the payment provider are embedded in the
    same way: [0007_create_stripe_checkout_session.js], whose metadata the
    webhook later reads, the account-link functions
    [0003_link_stripe_account.js] and [0005_fetch_stripe_bank_login_link.js]
    with the headers of [utils/utils.js], and the unescaping of the
    service-account key in [0010_send_automatic_reminders.js]. *)

From Stdlib Require Import ZArith String Ascii List Bool Lia.
From stdpp Require Import base option gmap strings list pretty.

Set Default Proof Using "Type".
Local Open Scope string_scope.
Local Open Scope list_scope.

(** ** JavaScript values *)

(** The values the handlers manipulate: what [JSON.parse] can return, plus
    [undefined], which property reads of missing keys and object literals
    built from them produce.  Numbers are integers (amounts are minor
    currency units).  An object is its list of own enumerable properties in
    insertion order; JavaScript objects have pairwise distinct keys, which
    [wf] records. *)
#[warnings="-register-all"]
Inductive value : Type :=
| Undefined
| Null
| Bool (b : bool)
| Num (n : Z)
| Str (s : string)
| Arr (elems : list value)
| Obj (fields : list (string * value)).

(** Structural induction that reaches below arrays and objects. *)
Section value_induction.
Variable P : value -> Prop.
Hypothesis P_undefined : P Undefined.
Hypothesis P_null : P Null.
Hypothesis P_bool : forall b, P (Bool b).
Hypothesis P_num : forall n, P (Num n).
Hypothesis P_str : forall s, P (Str s).
Hypothesis P_arr : forall l, Forall P l -> P (Arr l).
Hypothesis P_obj : forall fs, Forall (fun kv => P (snd kv)) fs -> P (Obj fs).

End value_induction.

(** [Boolean(v)] and the truthiness tests of [if], [!] and [||]. *)
Definition truthy (v : value) : bool :=
  match v with
  | Undefined | Null => false
  | Bool b => b
  | Num n => negb (n =? 0)%Z
  | Str s => negb (String.eqb s "")
  | Arr _ | Obj _ => true
  end.

(** [typeof v]. *)
Definition typeof (v : value) : string :=
  match v with
  | Undefined => "undefined"
  | Null | Arr _ | Obj _ => "object"
  | Bool _ => "boolean"
  | Num _ => "number"
  | Str _ => "string"
  end.

Fixpoint lookup_field (k : string) (fs : list (string * value)) : option value :=
  match fs with
  | [] => None
  | (k', v) :: rest => if String.eqb k k' then Some v else lookup_field k rest
  end.

(** [v?.k]: [undefined] on [null] and [undefined], the own property on an
    object.  The handlers read only data properties by fixed names
    ([createdBy], [status], [metadata], ...); none of them is a built-in
    property of a string, number, boolean or array, so for those the read
    is [undefined]. *)
Definition get_opt (v : value) (k : string) : value :=
  match v with
  | Obj fs =>
      match lookup_field k fs with
      | Some x => x
      | None => Undefined
      end
  | _ => Undefined
  end.

(** Outcome of running a piece of code: a value or a thrown exception
    (rendered as its message). *)
Inductive completion (A : Type) : Type :=
| Returned (a : A)
| Threw (err : string).
Arguments Returned {A} a.
Arguments Threw {A} err.

(** [v.k]: as [v?.k], but reading a property of [null] or [undefined]
    throws a [TypeError]. *)
Definition get (v : value) (k : string) : completion value :=
  match v with
  | Undefined | Null => Threw ("TypeError: Cannot read properties of " +:+ typeof v)
  | _ => Returned (get_opt v k)
  end.

(** Decimal rendering of an array index. *)
Definition index_key (i : nat) : string := pretty (Z.of_nat i).

(** [Object.keys(v)]: own enumerable property names; indices for arrays and
    strings, nothing for numbers and booleans, a [TypeError] for [null] and
    [undefined]. *)
Definition object_keys (v : value) : completion (list string) :=
  match v with
  | Undefined | Null => Threw "TypeError: Cannot convert undefined or null to object"
  | Bool _ | Num _ => Returned []
  | Str s => Returned (map index_key (seq 0 (String.length s)))
  | Arr l => Returned (map index_key (seq 0 (List.length l)))
  | Obj fs => Returned (map fst fs)
  end.

(** Template-literal interpolation [`${v}`] (JavaScript [ToString]): an
    array is its elements joined by commas, with [null] and [undefined]
    elements rendered empty. *)
Fixpoint to_display (v : value) : string :=
  match v with
  | Undefined => "undefined"
  | Null => "null"
  | Bool true => "true"
  | Bool false => "false"
  | Num n => pretty n
  | Str s => s
  | Arr l =>
      (fix join (l : list value) : string :=
         match l with
         | [] => ""
         | x :: rest =>
             let shown :=
               match x with
               | Undefined | Null => ""
               | _ => to_display x
               end in
             match rest with
             | [] => shown
             | _ :: _ => shown +:+ "," +:+ join rest
             end
         end) l
  | Obj _ => "[object Object]"
  end.

(** [JSON.parse(JSON.stringify(v))]: what survives serialisation.  A
    property whose value is [undefined] is omitted, an [undefined] array
    element becomes [null]. *)
Fixpoint to_json (v : value) : value :=
  match v with
  | Arr l =>
      Arr ((fix elems (l : list value) : list value :=
              match l with
              | [] => []
              | x :: rest =>
                  match x with
                  | Undefined => Null
                  | _ => to_json x
                  end :: elems rest
              end) l)
  | Obj fs =>
      Obj ((fix fields (fs : list (string * value)) : list (string * value) :=
              match fs with
              | [] => []
              | (k, x) :: rest =>
                  match x with
                  | Undefined => fields rest
                  | _ => (k, to_json x) :: fields rest
                  end
              end) fs)
  | _ => v
  end.

(** The same filter over the fields of an object. *)
Fixpoint to_json_fields (fs : list (string * value)) : list (string * value) :=
  match fs with
  | [] => []
  | (k, x) :: rest =>
      match x with
      | Undefined => to_json_fields rest
      | _ => (k, to_json x) :: to_json_fields rest
      end
  end.

(** A string as it travels in an HTTP body: [JsonText v] is a JSON text
    that parses to [v], [PlainText s] is text that is not JSON. *)
Inductive payload : Type :=
| JsonText (v : value)
| PlainText (s : string).

(** [JSON.stringify(v)] of an object literal. *)
Definition JSON_stringify (v : value) : payload := JsonText (to_json v).

(** [JSON.parse(body)]: a [SyntaxError] on text that is not JSON. *)
Definition JSON_parse (p : payload) : completion value :=
  match p with
  | JsonText v => Returned v
  | PlainText s => Threw ("SyntaxError: Unexpected token in JSON: " +:+ s)
  end.

(** Objects have pairwise distinct keys, at every depth. *)
Fixpoint fresh_key (k : string) (fs : list (string * value)) : bool :=
  match fs with
  | [] => true
  | (k', _) :: rest => negb (String.eqb k k') && fresh_key k rest
  end.



(** ** The document database *)

(** A document is a list of fields; the store maps (collection, document id)
    to documents.  [docRef.set(data, {merge})] either replaces the document
    or merges [data] into it.  A merge follows the field paths of [data]:
    a non-empty map is merged into an existing map field by field, every
    other value (scalar, array, empty map) overwrites; fields that [data]
    does not name are left as they are. *)
Module Firestore.

Fixpoint upsert (k : string) (v : value) (fs : list (string * value))
  : list (string * value) :=
  match fs with
  | [] => [(k, v)]
  | (k', v') :: rest =>
      if String.eqb k k' then (k, v) :: rest else (k', v') :: upsert k v rest
  end.

Fixpoint merge_value (old : option value) (new : value) {struct new} : value :=
  match new with
  | Obj nf =>
      match nf, old with
      | _ :: _, Some (Obj old_fields) =>
          Obj ((fix merge_into (nf acc : list (string * value)) {struct nf}
                  : list (string * value) :=
                  match nf with
                  | [] => acc
                  | (k, x) :: rest =>
                      merge_into rest
                        (upsert k (merge_value (lookup_field k acc) x) acc)
                  end) nf old_fields)
      | _, _ => new
      end
  | _ => new
  end.

(** The same walk over the top-level fields of a document. *)
Fixpoint merge_fields (old new : list (string * value)) : list (string * value) :=
  match new with
  | [] => old
  | (k, x) :: rest =>
      merge_fields (upsert k (merge_value (lookup_field k old) x) old) rest
  end.

Definition write (merge : bool) (existing : option (list (string * value)))
    (data : list (string * value)) : list (string * value) :=
  if merge then
    match existing with
    | Some fields => merge_fields fields data
    | None => merge_fields [] data
    end
  else data.

End Firestore.

(** ** Effects *)

Inductive effect : Type :=
| ConsoleError (args : list string)
| ConsoleInfo (args : list string)
| ConsoleLog (args : list string)
| FirestoreSet (collection docId : string) (data : value) (merge : bool)
| HttpPost (url : string) (body : payload).

Record world : Type := World {
  db : gmap (string * string) (list (string * value));
  trace : list effect
}.

Definition emit (e : effect) (w : world) : world :=
  {| db := db w; trace := trace w ++ [e] |}.

(** Computations: they read and update the world and finish by returning or
    throwing. *)
Definition M (A : Type) : Type := world -> completion A * world.

Definition ret {A} (a : A) : M A := fun w => (Returned a, w).
Definition throw {A} (err : string) : M A := fun w => (Threw err, w).
Definition lift {A} (c : completion A) : M A := fun w => (c, w).

Definition bind {A B} (c : M A) (k : A -> M B) : M B :=
  fun w =>
    match c w with
    | (Returned a, w') => k a w'
    | (Threw err, w') => (Threw err, w')
    end.

(** [try { c } catch (err) { h err }]. *)
Definition try_catch {A} (c : M A) (h : string -> M A) : M A :=
  fun w =>
    match c w with
    | (Returned a, w') => (Returned a, w')
    | (Threw err, w') => h err w'
    end.

Declare Scope js_scope.
Delimit Scope js_scope with js.
Notation "'let*' x ':=' c 'in' k" := (bind c (fun x => k))
  (at level 10, x name, c at level 100, k at level 200) : js_scope.
Notation "c ';;' k" := (bind c (fun _ => k))
  (at level 100, k at level 200, right associativity) : js_scope.

Definition console_error (args : list string) : M unit :=
  fun w => (Returned tt, emit (ConsoleError args) w).
Definition console_info (args : list string) : M unit :=
  fun w => (Returned tt, emit (ConsoleInfo args) w).
Definition console_log (args : list string) : M unit :=
  fun w => (Returned tt, emit (ConsoleLog args) w).

(** What [fetch] resolves to, or the rejection of a failed transport. *)
Inductive http_reply : Type :=
| Response (ok : bool) (statusText : string)
| NetworkError (msg : string).

(** The variables of [process.env] the two functions read. *)
Record process_env : Type := {
  VITE_DEVELOPMENT_ENV : option string;
  VITE_SITE_ADMIN_AUTHORIZED_KEY : option string;
  VITE_SITE_URL : option string;
  VITE_AUTH_STRIPE_WEBHOOK_SECRET : option string
}.

Definition env_value (x : option string) : value :=
  match x with
  | Some s => Str s
  | None => Undefined
  end.

(** [a === b] on primitives.  Arrays and objects compare by identity; the
    handlers compare request data with configuration strings only, and a
    request object is never identical to one of those. *)
Definition strict_eq (a b : value) : bool :=
  match a, b with
  | Undefined, Undefined => true
  | Null, Null => true
  | Bool x, Bool y => Bool.eqb x y
  | Num x, Num y => (x =? y)%Z
  | Str x, Str y => String.eqb x y
  | _, _ => false
  end.

(** The event object a function is invoked with, and what it returns.  The
    platform always passes a [headers] object; [queryStringParameters] may
    be an object or absent. *)
Record request : Type := {
  headers : list (string * value);
  queryStringParameters : value;
  body : payload
}.

Record response : Type := {
  statusCode : Z;
  response_body : payload
}.

Definition newline : string := String (ascii_of_nat 10) EmptyString.

(** ** The update-payment endpoint ([0012_update_stripe_payments.js]) *)

Module UpdateStripePayments.
Section endpoint.
Local Open Scope js_scope.

(** Configuration and collaborators: the environment variables, whether
    the database accepts a write (it resolves) or rejects it, and the
    services that answer an outbound request.  The only address this
    function calls is the email function, which lives outside the
    repository and has no access to the store. *)
Variable env : process_env.
Variable firestore_accepts : string -> string -> value -> bool.
Variable internet : string -> payload -> http_reply.

Definition isLocalDevTestEnv : value := env_value (VITE_DEVELOPMENT_ENV env).
Definition AdminAuthorizedKey : value := env_value (VITE_SITE_ADMIN_AUTHORIZED_KEY env).

(** [`${process.env.VITE_SITE_URL}/.netlify/functions/0001_send_email_fn`] *)
Definition send_email_url : string :=
  to_display (env_value (VITE_SITE_URL env)) +:+ "/.netlify/functions/0001_send_email_fn".

(** [await fetch(url, {method: POST, body})]: the request goes out; a
    transport failure rejects. *)
Definition fetch (url : string) (body : payload) : M http_reply :=
  fun w =>
    match internet url body with
    | Response ok statusText =>
        (Returned (Response ok statusText), emit (HttpPost url body) w)
    | NetworkError msg => (Threw msg, emit (HttpPost url body) w)
    end.

Definition response_ok (r : http_reply) : bool :=
  match r with
  | Response ok _ => ok
  | NetworkError _ => false
  end.

(** [db.collection(c).doc(path)]: the client refuses anything but a
    non-empty string. *)
Definition doc (collection : string) (documentPath : value) : M (string * string) :=
  match documentPath with
  | Str id =>
      if String.eqb id ""
      then throw "documentPath must be a non-empty string"
      else ret (collection, id)
  | _ => throw "documentPath must be a non-empty string"
  end.

(** [await docRef.set(data, {merge})]. *)
Definition docRef_set (docRef : string * string) (data : value) (merge : bool)
  : M unit :=
  fun w =>
    let w1 := emit (FirestoreSet (fst docRef) (snd docRef) data merge) w in
    match data with
    | Obj fs =>
        if firestore_accepts (fst docRef) (snd docRef) data
        then (Returned tt,
              {| db := <[docRef := Firestore.write merge (db w1 !! docRef) fs]> (db w1);
                 trace := trace w1 |})
        else (Threw "the write was rejected", w1)
    | _ => (Threw "data is not a plain object", w1)
    end.

Definition subject : string := "Notification of payment attached.".

Definition text (data : value) : string :=
  newline +:+
  "      Hi there," +:+ newline +:+
  "      " +:+ newline +:+
  "      Attached is your notification of payment." +:+ newline +:+
  newline +:+
  "      Rent Month: " +:+ to_display (get_opt data "rentMonth") +:+ newline +:+
  "      Rent Amount: $" +:+ to_display (get_opt data "rentAmount") +:+ newline +:+
  "      Additional Charges: $" +:+ to_display (get_opt data "additionalCharges") +:+ newline +:+
  "      Initial Late Fee: $" +:+ to_display (get_opt data "initialLateFee") +:+ newline +:+
  "      Daily Late Fee: $" +:+ to_display (get_opt data "dailyLateFee") +:+ newline +:+
  newline +:+
  newline +:+
  "      Current payment status: " +:+ to_display (get_opt data "status") +:+ newline +:+
  newline +:+
  "      Thank you," +:+ newline +:+
  newline +:+
  "      This is an auto-generated email. Please do not reply to this email." +:+ newline +:+
  "      ".

Definition success (docRef : string * string) : response :=
  {| statusCode := 200;
     response_body :=
       JSON_stringify (Obj [("success", Bool true); ("id", Str (snd docRef))]) |}.

(** [handler]: [Returned None] is a plain [return;], whose value is
    [undefined]. *)
Definition handler (event : request) : M (option response) :=
  if negb (truthy isLocalDevTestEnv)
     && negb (strict_eq (get_opt (queryStringParameters event) "key") AdminAuthorizedKey)
  then
    console_error ["problem fetching required token"] ;;
    ret (Some {| statusCode := 401; response_body := PlainText "Unauthorized" |})
  else
    try_catch
      (let* data := lift (JSON_parse (body event)) in
       let containsMetadata := truthy (get_opt data "createdBy") in
       let draftCollection := if containsMetadata then "rents" else "rentalPayments" in
       let* stripePaymentIntentID := lift (get data "stripePaymentIntentID") in
       let* docRef := doc draftCollection stripePaymentIntentID in
       docRef_set docRef data true ;;
       if containsMetadata then
         let* response :=
           fetch send_email_url
             (JSON_stringify
                (Obj [("to", get_opt data "customer_email");
                      ("subject", Str subject);
                      ("text", Str (text data))])) in
         if negb (response_ok response) then
           console_error
             ["unable to send email notification from stripe webhook handler."] ;;
           ret None
         else ret (Some (success docRef))
       else ret (Some (success docRef)))
      (fun err =>
         console_error
           ["error updating the database with rent details from webhook handler. "; err] ;;
         throw err).

End endpoint.
End UpdateStripePayments.

(** ** The webhook ([0011_fetch_stripe_webhook.js]) *)

Module FetchStripeWebhook.
Section webhook.
Local Open Scope js_scope.

(** Collaborators: the environment, the provider's signature check
    [stripe.webhooks.constructEvent] (it returns the decoded event or
    throws), the network, and the clock ([dayjs().toISOString()] at the
    n-th reading of one invocation). *)
Variable env : process_env.
Variable constructEvent : payload -> value -> value -> completion value.
Variable network : string -> payload -> world -> http_reply * world.
Variable clock : nat -> string.

(** [`${process.env.VITE_SITE_URL}/.netlify/functions/0012_update_stripe_payments`] *)
Definition update_payments_url : string :=
  to_display (env_value (VITE_SITE_URL env))
  +:+ "/.netlify/functions/0012_update_stripe_payments".

Definition fetch (url : string) (body : payload) : M http_reply :=
  fun w =>
    match network url body (emit (HttpPost url body) w) with
    | (Response ok statusText, w') => (Returned (Response ok statusText), w')
    | (NetworkError msg, w') => (Threw msg, w')
    end.

Definition response_ok (r : http_reply) : bool :=
  match r with
  | Response ok _ => ok
  | NetworkError _ => false
  end.

Definition response_statusText (r : http_reply) : string :=
  match r with
  | Response _ statusText => statusText
  | NetworkError _ => ""
  end.

(** [keys[0]] *)
Definition first_key (keys : list string) : value :=
  match keys with
  | [] => Undefined
  | k :: _ => Str k
  end.

(** [updateDb]: the value the returned promise resolves to, or its
    rejection. *)
Definition updateDb (stripeEventType data : value) : M value :=
  let* missing :=
    (if negb (truthy stripeEventType) then ret true
     else if negb (String.eqb (typeof data) "object") then ret true
     else let* keys := lift (object_keys data) in
          ret (Nat.eqb (List.length keys) 0)) in
  if (missing : bool) then
    console_error ["unable to update data. missing required fields."] ;;
    ret Null
  else
    try_catch
      (if truthy (get_opt data "metadata") then
         let metadata := get_opt data "metadata" in
         let propertyId := get_opt metadata "propertyId" in
         let propertyOwnerId := get_opt metadata "propertyOwnerId" in
         let tenantEmail := get_opt metadata "customer_email" in
         let rentAmount := get_opt metadata "rentAmount" in
         let additionalCharges := get_opt metadata "additionalCharges" in
         let initialLateFee := get_opt metadata "initialLateFee" in
         let dailyLateFee := get_opt metadata "dailyLateFee" in
         let rentMonth := get_opt metadata "rentMonth" in
         let tenantId := get_opt metadata "tenantId" in
         let stripePaymentIntentID := get_opt data "payment_intent" in
         let* status := lift (get data "status") in
         let* payment_method_options := lift (get data "payment_method_options") in
         let* option_keys := lift (object_keys payment_method_options) in
         let draftData :=
           Obj [("tenantId", tenantId);
                ("tenantEmail", tenantEmail);
                ("propertyId", propertyId);
                ("propertyOwnerId", propertyOwnerId);
                ("rentMonth", rentMonth);
                ("rentAmount", rentAmount);
                ("additionalCharges", additionalCharges);
                ("initialLateFee", initialLateFee);
                ("dailyLateFee", dailyLateFee);
                ("stripePaymentIntentID", stripePaymentIntentID);
                ("method", Str "stripe");
                ("status", status);
                ("stripeEventType", stripeEventType);
                ("paymentMethodType", first_key option_keys);
                ("createdBy", tenantId);
                ("createdOn", Str (clock 0));
                ("updatedBy", tenantId);
                ("updatedOn", Str (clock 1))] in
         let* response := fetch update_payments_url (JSON_stringify draftData) in
         if negb (response_ok response) then
           console_error ["failed to update db."] ;;
           throw ("Failed to update DB: " +:+ response_statusText response)
         else ret (Bool true)
       else
         let* id := lift (get data "id") in
         let* status := lift (get data "status") in
         let* amount := lift (get data "amount") in
         let draftData :=
           Obj [("stripePaymentIntentID", id);
                ("method", Str "stripe");
                ("status", status);
                ("amount", amount);
                ("stripeEventType", stripeEventType);
                ("createdOn", Str (clock 0));
                ("updatedOn", Str (clock 1))] in
         let* response := fetch update_payments_url (JSON_stringify draftData) in
         if negb (response_ok response) then
           console_error ["failed to update db."] ;;
           throw ("Failed to update DB: " +:+ response_statusText response)
         else ret (Bool false))
      (fun err =>
         console_error ["updateDb error:"; err] ;;
         ret (Bool false)).

(** A call of an async function whose promise is dropped: its effects
    happen, its result and its rejection reach nobody. *)
Definition detached {A} (c : M A) : M unit :=
  fun w => (Returned tt, snd (c w)).

Definition payment_intent_record (eventDetails : value) : value :=
  Obj [("id", get_opt eventDetails "id");
       ("amount", get_opt eventDetails "amount");
       ("status", get_opt eventDetails "status")].

Definition charge_record (eventDetails : value) : value :=
  Obj [("id", get_opt eventDetails "payment_intent");
       ("amount", get_opt eventDetails "amount");
       ("status", get_opt eventDetails "status");
       ("paymentMethod", get_opt eventDetails "payment_method");
       ("paymentMethodDetails", get_opt eventDetails "payment_method_details")].

Definition charge_succeeded_record (eventDetails : value) : value :=
  Obj [("id", get_opt eventDetails "payment_intent");
       ("amount", get_opt eventDetails "amount");
       ("status", get_opt eventDetails "status");
       ("paymentMethod", get_opt eventDetails "payment_method");
       ("paymentMethodDetails", get_opt eventDetails "payment_method_details");
       ("recieptURL", get_opt eventDetails "receipt_url")].

(** The [switch] over the event type ([===] against string literals). *)
Definition updateStripePaymentHandler (stripeEventType eventDetails : value) : M unit :=
  let case (name : string) := strict_eq stripeEventType (Str name) in
  if case "payment_intent.created" then
    console_info
      ["Submitted stripe payment services for payment intent with created stamp."] ;;
    detached (updateDb stripeEventType (payment_intent_record eventDetails))
  else if case "payment_intent.processing" then
    console_info
      ["Submitted stripe payment services for payment intent with processing stamp."] ;;
    detached (updateDb stripeEventType (payment_intent_record eventDetails))
  else if case "payment_intent.succeeded" then
    console_info
      ["Submitted stripe payment services for payment intent with success stamp."] ;;
    detached (updateDb stripeEventType (payment_intent_record eventDetails))
  else if case "checkout.session.completed" then
    console_info
      ["Submitted stripe payment services for checkout session intent with completed stamp."] ;;
    detached (updateDb stripeEventType eventDetails)
  else if case "checkout.session.async_payment_succeeded" then
    console_info
      ["Submitted async stripe payment services for payment intent with success stamp."] ;;
    detached (updateDb stripeEventType eventDetails)
  else if case "checkout.session.async_payment_failed" then
    console_info
      ["Submitted async stripe payment services for payment intent with failure stamp."] ;;
    detached (updateDb stripeEventType eventDetails)
  else if case "charge.failed" then
    console_info
      ["Submitted stripe payment services for charge intent with failed stamp."] ;;
    detached (updateDb stripeEventType (charge_record eventDetails))
  else if case "charge.pending" then
    console_info
      ["Submitted stripe payment services for charge intent with pending stamp."] ;;
    detached (updateDb stripeEventType (charge_record eventDetails))
  else if case "charge.succeeded" then
    console_info
      ["Submitted stripe payment services for charge intent with success stamp."] ;;
    detached (updateDb stripeEventType (charge_succeeded_record eventDetails))
  else if case "charge.updated" then
    console_info
      ["Submitted stripe payment services for charge intent with updated stamp."] ;;
    detached (updateDb stripeEventType (charge_record eventDetails))
  else
    console_log ["No matching case for event type:"; to_display stripeEventType].

Definition received : response :=
  {| statusCode := 200;
     response_body := JSON_stringify (Obj [("received", Bool true)]) |}.

Definition handler (event : request) : M response :=
  let sig := get_opt (Obj (headers event)) "stripe-signature" in
  let* verified :=
    try_catch
      (let* stripeEvent :=
         lift (constructEvent (body event) sig
                 (env_value (VITE_AUTH_STRIPE_WEBHOOK_SECRET env))) in
       ret (inr stripeEvent))
      (fun err =>
         console_error ["Webhook signature verification failed:"; err] ;;
         ret (inl {| statusCode := 400;
                     response_body := PlainText ("Webhook Error: " +:+ err) |})) in
  match verified with
  | inl rejected => ret rejected
  | inr stripeEvent =>
      updateStripePaymentHandler
        (get_opt stripeEvent "type")
        (get_opt (get_opt stripeEvent "data") "object") ;;
      ret received
  end.

End webhook.
End FetchStripeWebhook.

(** ** The two functions deployed on one site *)

(** The webhook reaches the update-payment endpoint over HTTP at
    [update_payments_url], with a JSON body and no query string.  The
    platform turns what the endpoint's handler produces into the reply the
    caller sees: the returned status, or a server error when the handler
    throws or returns nothing.  Every other address belongs to a service
    outside the repository ([internet]), the email function among them. *)
Module Deployment.
Section site.
Variable env : process_env.
Variable firestore_accepts : string -> string -> value -> bool.
Variable constructEvent : payload -> value -> value -> completion value.
Variable internet : string -> payload -> http_reply.
Variable clock : nat -> string.

Definition outside (url : string) (body : payload) (w : world) : http_reply * world :=
  (internet url body, w).

Definition update_payments (event : request) : M (option response) :=
  UpdateStripePayments.handler env firestore_accepts internet event.

Definition internal_call (body : payload) : request :=
  {| headers := [("content-type", Str "application/json")];
     queryStringParameters := Obj [];
     body := body |}.

Definition reason_phrase (status : Z) : string :=
  if (status =? 200)%Z then "OK"
  else if (status =? 401)%Z then "Unauthorized"
  else "".

Definition platform_reply (c : completion (option response)) : http_reply :=
  match c with
  | Returned (Some r) =>
      Response ((200 <=? statusCode r)%Z && (statusCode r <? 300)%Z)
        (reason_phrase (statusCode r))
  | Returned None | Threw _ => Response false "Internal Server Error"
  end.

Definition site_network (url : string) (body : payload) (w : world)
  : http_reply * world :=
  if String.eqb url (FetchStripeWebhook.update_payments_url env) then
    let (c, w') := update_payments (internal_call body) w in
    (platform_reply c, w')
  else outside url body w.

Definition webhook (event : request) : M response :=
  FetchStripeWebhook.handler env constructEvent site_network clock event.

End site.
End Deployment.

(** ** Observations on a run *)

(** The effects a computation added to the trace of the world it started
    in. *)
Definition effects_since (before after : world) : list effect :=
  drop (List.length (trace before)) (trace after).

(** The database writes among some effects, as (collection, document key,
    merge flag). *)
Fixpoint writes (es : list effect) : list (string * string * bool) :=
  match es with
  | [] => []
  | FirestoreSet collection docId _ merge :: rest =>
      (collection, docId, merge) :: writes rest
  | _ :: rest => writes rest
  end.

(** The outbound requests among some effects. *)
Fixpoint posts (es : list effect) : list (string * payload) :=
  match es with
  | [] => []
  | HttpPost url body :: rest => (url, body) :: posts rest
  | _ :: rest => posts rest
  end.

(** The console lines written at error level. *)
Fixpoint errors (es : list effect) : list (list string) :=
  match es with
  | [] => []
  | ConsoleError args :: rest => args :: errors rest
  | _ :: rest => errors rest
  end.

(** The case labels of the classifier's [switch]. *)
Definition payment_intent_events : list string :=
  ["payment_intent.created"; "payment_intent.processing"; "payment_intent.succeeded"].

Definition checkout_session_events : list string :=
  ["checkout.session.completed"; "checkout.session.async_payment_succeeded";
   "checkout.session.async_payment_failed"].

Definition charge_events : list string :=
  ["charge.failed"; "charge.pending"; "charge.succeeded"; "charge.updated"].

Definition handled_events : list string :=
  payment_intent_events ++ checkout_session_events ++ charge_events.


(** The authorisation test of the update-payment endpoint, as the handler
    evaluates it: it rejects when [!isLocalDevTestEnv && key !== AdminAuthorizedKey]. *)
Definition rejects (env : process_env) (event : request) : bool :=
  negb (truthy (UpdateStripePayments.isLocalDevTestEnv env))
  && negb (strict_eq (get_opt (queryStringParameters event) "key")
             (UpdateStripePayments.AdminAuthorizedKey env)).

(** The collection a record is routed to. *)
Definition partition (data : value) : string :=
  if truthy (get_opt data "createdBy") then "rents" else "rentalPayments".

(** Whether the update-payment endpoint turns away the webhook's own call,
    which carries no [key] (the test does not look at the body). *)
Definition internal_call_rejected (env : process_env) : bool :=
  rejects env (Deployment.internal_call (JsonText Null)).


(** ** A concrete site, for running the functions on examples *)

Module Sample.

(** A development deployment and a production one. *)
Definition dev : process_env :=
  {| VITE_DEVELOPMENT_ENV := Some "true";
     VITE_SITE_ADMIN_AUTHORIZED_KEY := Some "s3cret";
     VITE_SITE_URL := Some "https://homehive.example";
     VITE_AUTH_STRIPE_WEBHOOK_SECRET := Some "whsec_1" |}.

Definition production : process_env :=
  {| VITE_DEVELOPMENT_ENV := None;
     VITE_SITE_ADMIN_AUTHORIZED_KEY := Some "s3cret";
     VITE_SITE_URL := Some "https://homehive.example";
     VITE_AUTH_STRIPE_WEBHOOK_SECRET := Some "whsec_1" |}.

(** A stand-in for the provider's check: the event is accepted when the
    header carries the expected token for the configured secret. *)
Definition constructEvent (body : payload) (sig secret : value) : completion value :=
  match body, sig, secret with
  | JsonText v, Str given, Str expected =>
      if String.eqb given ("v1=" +:+ expected) then Returned v
      else Threw "No signatures found matching the expected signature for payload"
  | _, _, _ => Threw "Unable to extract timestamp and signatures from header"
  end.

Definition accepting (collection docId : string) (data : value) : bool := true.

Definition mail_ok (url : string) (body : payload) : http_reply := Response true "OK".
Definition mail_down (url : string) (body : payload) : http_reply :=
  Response false "Bad Gateway".

Definition clock (n : nat) : string :=
  match n with
  | O => "2025-01-01T00:00:00.000Z"
  | S _ => "2025-01-01T00:00:00.001Z"
  end.

Definition empty : world := {| db := ∅; trace := [] |}.

Definition signed (stripeEvent : value) : request :=
  {| headers := [("stripe-signature", Str "v1=whsec_1")];
     queryStringParameters := Obj [];
     body := JsonText stripeEvent |}.

Definition unsigned (stripeEvent : value) : request :=
  {| headers := [];
     queryStringParameters := Obj [];
     body := JsonText stripeEvent |}.

Definition stripe_event (type : string) (object : value) : value :=
  Obj [("id", Str "evt_1"); ("type", Str type); ("data", Obj [("object", object)])].

(** A completed checkout session started by the tenant-facing app. *)
Definition checkout_session : value :=
  Obj [("id", Str "cs_1");
       ("payment_intent", Str "pi_1");
       ("status", Str "complete");
       ("payment_method_options", Obj [("card", Obj [])]);
       ("metadata",
        Obj [("customer_email", Str "a@b.com");
             ("tenantId", Str "tenant_1");
             ("propertyId", Str "prop_1");
             ("propertyOwnerId", Str "owner_1");
             ("rentMonth", Str "January");
             ("rentAmount", Str "150000");
             ("additionalCharges", Str "0");
             ("initialLateFee", Str "0");
             ("dailyLateFee", Str "0")])].

Definition charge : value :=
  Obj [("id", Str "ch_1");
       ("payment_intent", Str "pi_1");
       ("amount", Num 150000);
       ("status", Str "succeeded");
       ("payment_method", Str "pm_1");
       ("payment_method_details", Obj [("type", Str "card")]);
       ("receipt_url", Str "https://pay.example/r/1")].

Definition payment_intent : value :=
  Obj [("id", Str "pi_1"); ("amount", Num 150000); ("status", Str "succeeded")].

(** The record [updateDb] posts for [checkout_session]. *)
Definition rent_record : value :=
  Obj [("tenantId", Str "tenant_1");
       ("tenantEmail", Str "a@b.com");
       ("propertyId", Str "prop_1");
       ("propertyOwnerId", Str "owner_1");
       ("rentMonth", Str "January");
       ("rentAmount", Str "150000");
       ("additionalCharges", Str "0");
       ("initialLateFee", Str "0");
       ("dailyLateFee", Str "0");
       ("stripePaymentIntentID", Str "pi_1");
       ("method", Str "stripe");
       ("status", Str "complete");
       ("stripeEventType", Str "checkout.session.completed");
       ("paymentMethodType", Str "card");
       ("createdBy", Str "tenant_1");
       ("createdOn", Str "2025-01-01T00:00:00.000Z");
       ("updatedBy", Str "tenant_1");
       ("updatedOn", Str "2025-01-01T00:00:00.001Z")].

(** A call of the update-payment endpoint with the given [key]. *)
Definition update_request (key : value) (record : value) : request :=
  {| headers := [("content-type", Str "application/json")];
     queryStringParameters := Obj [("key", key)];
     body := JsonText record |}.

End Sample.

(** ** Further observations *)

(** Pairwise distinct keys at the top level of an object (the values are
    not inspected). *)
Fixpoint distinct_keys (fs : list (string * value)) : bool :=
  match fs with
  | [] => true
  | (k, _) :: rest => fresh_key k rest && distinct_keys rest
  end.

(** A network that only adds to the trace: whatever it does while serving a
    request, what was recorded before stays recorded. *)
Definition appends (network : string -> payload -> world -> http_reply * world) : Prop :=
  forall url body w, exists es, trace (snd (network url body w)) = trace w ++ es.

(** The notification the update-payment endpoint posts for a record. *)
Definition notification (data : value) : payload :=
  JSON_stringify
    (Obj [("to", get_opt data "customer_email");
          ("subject", Str UpdateStripePayments.subject);
          ("text", Str (UpdateStripePayments.text data))]).

(** The field names of the record [updateDb] posts for an event without
    metadata. *)
Definition bare_record_keys : list string :=
  ["stripePaymentIntentID"; "method"; "status"; "amount"; "stripeEventType";
   "createdOn"; "updatedOn"].

(** More collaborators to run examples with. *)
Module Fixture.


(** A network that acknowledges every request and does nothing else. *)
Definition acknowledging (url : string) (body : payload) (w : world)
  : http_reply * world :=
  (Response true "OK", w).

(** A checkout session whose [payment_method_options] is [null]. *)
Definition session_without_options : value :=
  Obj [("id", Str "cs_2");
       ("payment_intent", Str "pi_2");
       ("status", Str "complete");
       ("payment_method_options", Null);
       ("metadata", Obj [("customer_email", Str "a@b.com"); ("tenantId", Str "tenant_1")])].



End Fixture.

(** ** The functions that talk to the payment provider *)

(** The event of a function that looks at the request method, and the
    variables of [process.env] these functions read. *)
Record http_event : Type := {
  httpMethod : value;
  event_body : payload
}.

Record stripe_env : Type := {
  STRIPE_PAYMENT_SUCCESS_URL : option string;
  STRIPE_PAYMENT_FAILURE_URL : option string;
  STRIPE_RETURN_URL : option string;
  STRIPE_REFRESH_URL : option string
}.

(** [const {first, ...} = v]: destructuring [null] or [undefined] throws;
    of anything else the names are read as with [?.]. *)
Definition destructure (v : value) (first : string) : completion value :=
  match v with
  | Undefined | Null =>
      Threw ("Cannot destructure property '" +:+ first +:+ "' of 'JSON.parse(...)' as it is "
             +:+ to_display v +:+ ".")
  | _ => Returned v
  end.

(** *** Shared headers ([utils/utils.js]) *)

Module Utils.
Section utils.

(** The list the module computes once, when it is loaded, from
    [process.env.ALLOW_SITE_URIS]. *)
Variable allowOriginUris : list string.

(** [allowOriginUris.includes(origin)] *)
Definition includes (origin : string) : bool :=
  existsb (String.eqb origin) allowOriginUris.

Definition populateCorsHeaders (origin : string) : list (string * value) :=
  let isAllowed := includes origin in
  [("Access-Control-Allow-Origin", Str (if isAllowed then origin else "null"));
   ("Access-Control-Allow-Methods", Str "POST, OPTIONS");
   ("Access-Control-Allow-Headers", Str "Content-Type")].

(** [populateCorsHeaders()]: the parameter takes its default, the empty
    string. *)
Definition populateCorsHeaders_default : list (string * value) :=
  populateCorsHeaders "".

End utils.
End Utils.

(** *** Account links ([0003_link_stripe_account.js],
        [0005_fetch_stripe_bank_login_link.js]) *)

(** What these two functions return: a status, headers and a body. *)
Record cors_response : Type := {
  cors_statusCode : Z;
  cors_headers : list (string * value);
  cors_body : payload
}.

(** The two handlers are the same text up to the [type] of the link they
    ask for. *)
Module AccountLink.
Section link.
Local Open Scope js_scope.

(** Collaborators: the environment, the allowed origins of [utils], and
    the provider's [stripe.accountLinks.create], which resolves to a link
    or rejects with a message. *)
Variable env : stripe_env.
Variable allowOriginUris : list string.
Variable accountLinks_create : value -> completion value.
Variable link_type : string.

Definition link_params (accountId : value) : value :=
  Obj [("account", accountId);
       ("refresh_url", env_value (STRIPE_RETURN_URL env));
       ("return_url", env_value (STRIPE_REFRESH_URL env));
       ("type", Str link_type)].

Definition handler (event : http_event) : M cors_response :=
  if negb (strict_eq (httpMethod event) (Str "POST")) then
    ret {| cors_statusCode := 405;
           cors_headers := Utils.populateCorsHeaders_default allowOriginUris;
           cors_body := PlainText "Method Not Allowed" |}
  else
    try_catch
      (let* parsed := lift (JSON_parse (event_body event)) in
       let* parsed := lift (destructure parsed "accountId") in
       let accountId := get_opt parsed "accountId" in
       let* accountLink := lift (accountLinks_create (link_params accountId)) in
       let* url := lift (get accountLink "url") in
       ret {| cors_statusCode := 200;
              cors_headers := Utils.populateCorsHeaders_default allowOriginUris;
              cors_body := JSON_stringify (Obj [("url", url)]) |})
      (fun err =>
         ret {| cors_statusCode := 400;
                cors_headers := Utils.populateCorsHeaders_default allowOriginUris;
                cors_body := JSON_stringify (Obj [("error", Str err)]) |}).

End link.
End AccountLink.

Module LinkStripeAccount.
Definition handler env allowOriginUris accountLinks_create :=
  AccountLink.handler env allowOriginUris accountLinks_create "account_onboarding".
End LinkStripeAccount.

Module FetchStripeBankLoginLink.
Definition handler env allowOriginUris accountLinks_create :=
  AccountLink.handler env allowOriginUris accountLinks_create "account_update".
End FetchStripeBankLoginLink.

(** *** Checkout sessions ([0007_create_stripe_checkout_session.js]) *)

Module CreateStripeCheckoutSession.
Section checkout.
Local Open Scope js_scope.

(** Collaborators: the environment and the provider's
    [stripe.checkout.sessions.create(params, options)], which resolves to a
    session or rejects with a message. *)
Variable env : stripe_env.
Variable sessions_create : value -> value -> completion value.

Definition line_item (name : string) (unit_amount : value) : value :=
  Obj [("price_data",
        Obj [("currency", Str "usd");
             ("product_data", Obj [("name", Str name)]);
             ("unit_amount", unit_amount)]);
       ("quantity", Num 1)].

(** The first argument of [sessions.create], built from the parsed
    request. *)
Definition session_params (parsed : value) : value :=
  let rentAmount := get_opt parsed "rentAmount" in
  let additionalCharges := get_opt parsed "additionalCharges" in
  let initialLateFee := get_opt parsed "initialLateFee" in
  let dailyLateFee := get_opt parsed "dailyLateFee" in
  let propertyId := get_opt parsed "propertyId" in
  let propertyOwnerId := get_opt parsed "propertyOwnerId" in
  let tenantId := get_opt parsed "tenantId" in
  let rentMonth := get_opt parsed "rentMonth" in
  let tenantEmail := get_opt parsed "tenantEmail" in
  Obj [("payment_method_types", Arr [Str "card"; Str "us_bank_account"]);
       ("line_items",
        Arr [line_item "Monthly Rent" rentAmount;
             line_item "Additional Charges" additionalCharges;
             line_item "Initial late fee" initialLateFee;
             line_item "Daily late fee" dailyLateFee]);
       ("mode", Str "payment");
       ("customer_email", tenantEmail);
       ("metadata",
        Obj [("tenantId", tenantId);
             ("propertyId", propertyId);
             ("propertyOwnerId", propertyOwnerId);
             ("rentMonth", rentMonth);
             ("rentAmount", rentAmount);
             ("additionalCharges", additionalCharges);
             ("initialLateFee", initialLateFee);
             ("dailyLateFee", dailyLateFee);
             ("customer_email", tenantEmail)]);
       ("success_url",
        Str (to_display (env_value (STRIPE_PAYMENT_SUCCESS_URL env))
             +:+ "&session_id={CHECKOUT_SESSION_ID}"));
       ("cancel_url", env_value (STRIPE_PAYMENT_FAILURE_URL env))].

(** The second argument: the session is created on behalf of the property
    owner. *)
Definition session_options (parsed : value) : value :=
  Obj [("stripeAccount", get_opt parsed "stripeOwnerAccountId")].

Definition handler (event : http_event) : M response :=
  if negb (strict_eq (httpMethod event) (Str "POST")) then
    ret {| statusCode := 405; response_body := PlainText "Method Not Allowed" |}
  else
    try_catch
      (let* parsed := lift (JSON_parse (event_body event)) in
       let* parsed := lift (destructure parsed "rentAmount") in
       let* session :=
         lift (sessions_create (session_params parsed) (session_options parsed)) in
       let* id := lift (get session "id") in
       let* url := lift (get session "url") in
       ret {| statusCode := 200;
              response_body := JSON_stringify (Obj [("id", id); ("url", url)]) |})
      (fun err =>
         console_error ["Stripe Checkout Error:"; err] ;;
         ret {| statusCode := 400;
                response_body := JSON_stringify (Obj [("error", Str err)]) |}).

End checkout.
End CreateStripeCheckoutSession.

(** *** The service-account key ([0010_send_automatic_reminders.js]) *)

Module SendAutomaticReminders.

Definition backslash : ascii := ascii_of_nat 92.
Definition letter_n : ascii := ascii_of_nat 110.
Definition line_feed : ascii := ascii_of_nat 10.

(** [s.replace(/\\n/gm, "\n")]: every backslash followed by [n], from the
    left and without overlap, becomes a line feed. *)
Fixpoint replace_escaped_newline (s : string) : string :=
  match s with
  | EmptyString => EmptyString
  | String a tail =>
      match tail with
      | String b rest =>
          if Ascii.eqb a backslash && Ascii.eqb b letter_n
          then String line_feed (replace_escaped_newline rest)
          else String a (replace_escaped_newline tail)
      | EmptyString => String a EmptyString
      end
  end.

(** [s.replace(/\\\\n/gm, "\n")]: the same for two backslashes followed by
    [n]. *)
Fixpoint replace_twice_escaped_newline (s : string) : string :=
  match s with
  | EmptyString => EmptyString
  | String a tail =>
      match tail with
      | String b (String c rest) =>
          if Ascii.eqb a backslash && Ascii.eqb b backslash && Ascii.eqb c letter_n
          then String line_feed (replace_twice_escaped_newline rest)
          else String a (replace_twice_escaped_newline tail)
      | _ => String a (replace_twice_escaped_newline tail)
      end
  end.

(** The [privateKey] that [initializeFirebase] hands to the credential, from
    [process.env.FIREBASE_ADMIN_PRIVATE_KEY]. *)
Definition privateKey (FIREBASE_ADMIN_PRIVATE_KEY : string) : string :=
  replace_twice_escaped_newline (replace_escaped_newline FIREBASE_ADMIN_PRIVATE_KEY).

(** Whether a backslash is directly followed by [n] somewhere in [s]. *)
Fixpoint has_escaped_newline (s : string) : bool :=
  match s with
  | EmptyString => false
  | String a tail =>
      match tail with
      | String b _ =>
          (Ascii.eqb a backslash && Ascii.eqb b letter_n) || has_escaped_newline tail
      | EmptyString => false
      end
  end.

End SendAutomaticReminders.

(** More inputs to run these functions on. *)
Module Desk.

Definition env : stripe_env :=
  {| STRIPE_PAYMENT_SUCCESS_URL := Some "https://site.test/paid?ok=1";
     STRIPE_PAYMENT_FAILURE_URL := Some "https://site.test/failed";
     STRIPE_RETURN_URL := Some "https://site.test/return";
     STRIPE_REFRESH_URL := Some "https://site.test/refresh" |}.

Definition origins : list string := ["https://site.test"; "https://www.site.test"].

Definition post (body : value) : http_event :=
  {| httpMethod := Str "POST"; event_body := JsonText body |}.

Definition checkout_request : value :=
  Obj [("rentAmount", Num 150000);
       ("additionalCharges", Num 0);
       ("initialLateFee", Num 0);
       ("dailyLateFee", Num 0);
       ("stripeOwnerAccountId", Str "acct_1");
       ("propertyId", Str "property_1");
       ("propertyOwnerId", Str "owner_1");
       ("tenantId", Str "tenant_1");
       ("rentMonth", Str "January");
       ("tenantEmail", Str "a@b.com")].

(** A provider that opens a session for the owner [acct_1] only. *)
Definition sessions_create (params options : value) : completion value :=
  if strict_eq (get_opt options "stripeAccount") (Str "acct_1")
  then Returned (Obj [("id", Str "cs_1"); ("url", Str "https://pay.test/cs_1")])
  else Threw "No such account".

(** A provider that does the same and also serves a test account. *)
Definition sessions_create_or_test (params options : value) : completion value :=
  if strict_eq (get_opt options "stripeAccount") (Str "acct_test")
  then Returned (Obj [("id", Str "cs_test"); ("url", Str "https://pay.test/cs_test")])
  else sessions_create params options.

Definition accountLinks_create (params : value) : completion value :=
  match get_opt params "account" with
  | Str _ => Returned (Obj [("url", Str "https://connect.test/link_1")])
  | _ => Threw "Missing required param: account."
  end.


End Desk.

(** ** Proof steps *)

(** Brings the trace of a run into the shape [trace w ++ es] and reads off
    the added effects. *)
Ltac since :=
  unfold effects_since, emit; cbn [trace db];
  rewrite <- ?app_assoc; rewrite ?drop_app_length; cbn [app].

(** Unfold one function together with the monad it is written in. *)
Ltac unfold_handler :=
  unfold UpdateStripePayments.handler, UpdateStripePayments.fetch,
    UpdateStripePayments.doc, UpdateStripePayments.docRef_set,
    UpdateStripePayments.response_ok, console_error, bind, try_catch, lift, ret,
    throw.

Ltac unfold_updateDb :=
  unfold FetchStripeWebhook.updateDb, FetchStripeWebhook.fetch,
    FetchStripeWebhook.response_ok, FetchStripeWebhook.response_statusText,
    console_error, bind, try_catch, lift, ret, throw.

Ltac unfold_classifier :=
  unfold FetchStripeWebhook.updateStripePaymentHandler,
    FetchStripeWebhook.detached, console_info, console_log, bind.

Ltac unfold_checkout :=
  unfold CreateStripeCheckoutSession.handler, console_error, bind, try_catch, lift, ret.

Ltac unfold_link :=
  unfold LinkStripeAccount.handler, FetchStripeBankLoginLink.handler,
    AccountLink.handler, bind, try_catch, lift, ret.

(** * Properties *)

(** ** Merging into a document *)

Section merge_facts.
Import Firestore.







Lemma fresh_key_lookup k fs : fresh_key k fs = true -> lookup_field k fs = None.
Proof.
  induction fs as [|[k' v] fs IH]; simpl; [reflexivity|].
  intros [H1 H2]%andb_prop. apply negb_true_iff in H1. rewrite H1. auto.
Qed.










End merge_facts.

(** ** The update-payment endpoint *)

Section endpoint_facts.
Variable env : process_env.
Variable firestore_accepts : string -> string -> value -> bool.
Variable internet : string -> payload -> http_reply.

Local Abbreviation handler := (UpdateStripePayments.handler env firestore_accepts internet).

Lemma handler_rejects event w :
  rejects env event = true ->
  handler event w
  = (Returned (Some {| statusCode := 401; response_body := PlainText "Unauthorized" |}),
     emit (ConsoleError ["problem fetching required token"]) w).
Proof.
  unfold rejects. intros H. unfold_handler. now rewrite H.
Qed.






(** The run of the handler on an authorised request whose record has a
    usable identifier, spelled out: first for a record without the
    [createdBy] marker, then for one with it. *)
Lemma handler_bare_record event fs id w :
  rejects env event = false ->
  body event = JsonText (Obj fs) ->
  lookup_field "stripePaymentIntentID" fs = Some (Str id) -> id <> "" ->
  truthy (get_opt (Obj fs) "createdBy") = false ->
  handler event w
  = let w1 := emit (FirestoreSet "rentalPayments" id (Obj fs) true) w in
    if firestore_accepts "rentalPayments" id (Obj fs) then
      (Returned (Some (UpdateStripePayments.success ("rentalPayments", id))),
       {| db := <[("rentalPayments", id) :=
                   Firestore.write true (db w !! ("rentalPayments", id)) fs]> (db w);
          trace := trace w1 |})
    else
      (Threw "the write was rejected",
       emit (ConsoleError
               ["error updating the database with rent details from webhook handler. ";
                "the write was rejected"]) w1).
Proof.
  unfold rejects. intros Hrej Hbody Hid Hne%String.eqb_neq Hmeta.
  unfold_handler. rewrite Hrej, Hbody. cbn [JSON_parse get]. rewrite Hmeta.
  cbn [get_opt]. rewrite Hid, Hne. cbv beta iota zeta. cbn [fst snd].
  destruct (firestore_accepts _ _ _); reflexivity.
Qed.

Lemma handler_metadata_record event fs id w :
  rejects env event = false ->
  body event = JsonText (Obj fs) ->
  lookup_field "stripePaymentIntentID" fs = Some (Str id) -> id <> "" ->
  truthy (get_opt (Obj fs) "createdBy") = true ->
  handler event w
  = let w1 := emit (FirestoreSet "rents" id (Obj fs) true) w in
    if firestore_accepts "rents" id (Obj fs) then
      let mail :=
        JSON_stringify
          (Obj [("to", get_opt (Obj fs) "customer_email");
                ("subject", Str UpdateStripePayments.subject);
                ("text", Str (UpdateStripePayments.text (Obj fs)))]) in
      let w2 :=
        emit (HttpPost (UpdateStripePayments.send_email_url env) mail)
          {| db := <[("rents", id) :=
                      Firestore.write true (db w !! ("rents", id)) fs]> (db w);
             trace := trace w1 |} in
      match internet (UpdateStripePayments.send_email_url env) mail with
      | Response true _ =>
          (Returned (Some (UpdateStripePayments.success ("rents", id))), w2)
      | Response false _ =>
          (Returned None,
           emit (ConsoleError
                   ["unable to send email notification from stripe webhook handler."]) w2)
      | NetworkError msg =>
          (Threw msg,
           emit (ConsoleError
                   ["error updating the database with rent details from webhook handler. ";
                    msg]) w2)
      end
    else
      (Threw "the write was rejected",
       emit (ConsoleError
               ["error updating the database with rent details from webhook handler. ";
                "the write was rejected"]) w1).
Proof.
  unfold rejects. intros Hrej Hbody Hid Hne%String.eqb_neq Hmeta.
  unfold_handler. rewrite Hrej, Hbody. cbn [JSON_parse get]. rewrite Hmeta.
  cbn [get_opt]. rewrite Hid, Hne. cbv beta iota zeta. cbn [fst snd].
  destruct (firestore_accepts _ _ _); [|reflexivity].
  destruct (internet _ _) as [[|] ?|?]; reflexivity.
Qed.

End endpoint_facts.

(** ** The webhook *)

Lemma strict_eq_str v name : strict_eq v (Str name) = true <-> v = Str name.
Proof.
  destruct v; cbn; split; try discriminate; try congruence.
  - intros H%String.eqb_eq. now subst.
  - intros [= ->]. apply String.eqb_refl.
Qed.

Lemma strict_eq_str_false v name : v <> Str name -> strict_eq v (Str name) = false.
Proof.
  intros H. destruct (strict_eq v (Str name)) eqn:E; [|reflexivity].
  now apply strict_eq_str in E.
Qed.

Section webhook_facts.
Variable env : process_env.
Variable constructEvent : payload -> value -> value -> completion value.
Variable network : string -> payload -> world -> http_reply * world.
Variable clock : nat -> string.

Local Abbreviation handler := (FetchStripeWebhook.handler env constructEvent network clock).
Local Abbreviation updateDb := (FetchStripeWebhook.updateDb env network clock).
Local Abbreviation updateStripePaymentHandler :=
  (FetchStripeWebhook.updateStripePaymentHandler env network clock).

(** The guard at the head of [updateDb]. *)
Lemma updateDb_guard stripeEventType data w :
  truthy stripeEventType = false
  \/ typeof data <> "object"
  \/ object_keys data = Returned [] ->
  updateDb stripeEventType data w
  = (Returned Null,
     emit (ConsoleError ["unable to update data. missing required fields."]) w).
Proof.
  intros H. unfold_updateDb.
  destruct (truthy stripeEventType); [|reflexivity]. cbn [negb].
  destruct H as [H|[H|H]]; [discriminate| |].
  - apply String.eqb_neq in H. now rewrite H.
  - rewrite H. now destruct (String.eqb (typeof data) "object").
Qed.



(** The run of [updateDb] past its guard, spelled out: a record without
    metadata, then one with it. *)
Lemma updateDb_bare stripeEventType fs w :
  truthy stripeEventType = true -> fs <> [] ->
  truthy (get_opt (Obj fs) "metadata") = false ->
  updateDb stripeEventType (Obj fs) w
  = let body :=
      JSON_stringify
        (Obj [("stripePaymentIntentID", get_opt (Obj fs) "id");
              ("method", Str "stripe");
              ("status", get_opt (Obj fs) "status");
              ("amount", get_opt (Obj fs) "amount");
              ("stripeEventType", stripeEventType);
              ("createdOn", Str (clock 0));
              ("updatedOn", Str (clock 1))]) in
    let url := FetchStripeWebhook.update_payments_url env in
    match network url body (emit (HttpPost url body) w) with
    | (Response true _, w') => (Returned (Bool false), w')
    | (Response false statusText, w') =>
        (Returned (Bool false),
         emit (ConsoleError ["updateDb error:"; "Failed to update DB: " +:+ statusText])
           (emit (ConsoleError ["failed to update db."]) w'))
    | (NetworkError msg, w') =>
        (Returned (Bool false), emit (ConsoleError ["updateDb error:"; msg]) w')
    end.
Proof.
  intros Ht Hfs Hmeta. unfold_updateDb. rewrite Ht, Hmeta.
  destruct fs as [|f fs]; [congruence|].
  cbn [negb typeof String.eqb Ascii.eqb Bool.eqb object_keys map List.length Nat.eqb get].
  cbv zeta. destruct (network _ _ _) as [[[|] ?|?] ?]; reflexivity.
Qed.


(** The classifier never throws: each branch logs and, at most, starts
    [updateDb] without waiting for it. *)
Lemma classifier_returns stripeEventType eventDetails w :
  fst (updateStripePaymentHandler stripeEventType eventDetails w) = Returned tt.
Proof.
  unfold_classifier. repeat case_match; reflexivity.
Qed.

(** An event type outside the [switch] labels only leaves a log line. *)
Lemma classifier_default stripeEventType eventDetails w :
  (forall name, In name handled_events -> stripeEventType <> Str name) ->
  updateStripePaymentHandler stripeEventType eventDetails w
  = (Returned tt,
     emit (ConsoleLog ["No matching case for event type:";
                       to_display stripeEventType]) w).
Proof.
  intros H. unfold_classifier.
  rewrite !strict_eq_str_false; [reflexivity|..];
    apply H; unfold handled_events; cbn; tauto.
Qed.



Lemma classifier_charge name eventDetails w :
  In name charge_events ->
  exists line more,
    updateStripePaymentHandler (Str name) eventDetails w
    = (Returned tt,
       snd (updateDb (Str name)
              (Obj (("id", get_opt eventDetails "payment_intent")
                    :: ("amount", get_opt eventDetails "amount")
                    :: ("status", get_opt eventDetails "status")
                    :: more))
              (emit (ConsoleInfo [line]) w)))
    /\ lookup_field "metadata" more = None.
Proof.
  intros Hin. unfold_classifier. cbn in Hin.
  destruct Hin as [<-|[<-|[<-|[<-|[]]]]]; do 2 eexists; split; reflexivity.
Qed.

Lemma handler_signature_failure event msg w :
  constructEvent (body event) (get_opt (Obj (headers event)) "stripe-signature")
    (env_value (VITE_AUTH_STRIPE_WEBHOOK_SECRET env)) = Threw msg ->
  handler event w
  = (Returned {| statusCode := 400;
                 response_body := PlainText ("Webhook Error: " +:+ msg) |},
     emit (ConsoleError ["Webhook signature verification failed:"; msg]) w).
Proof.
  intros H. unfold handler, FetchStripeWebhook.handler, bind, try_catch, lift, ret,
    console_error. now rewrite H.
Qed.

Lemma handler_verified event stripeEvent w :
  constructEvent (body event) (get_opt (Obj (headers event)) "stripe-signature")
    (env_value (VITE_AUTH_STRIPE_WEBHOOK_SECRET env)) = Returned stripeEvent ->
  handler event w
  = (Returned FetchStripeWebhook.received,
     snd (updateStripePaymentHandler (get_opt stripeEvent "type")
            (get_opt (get_opt stripeEvent "data") "object") w)).
Proof.
  intros H. unfold handler, FetchStripeWebhook.handler, bind, try_catch, lift, ret.
  rewrite H.
  pose proof (classifier_returns (get_opt stripeEvent "type")
                (get_opt (get_opt stripeEvent "data") "object") w) as Hret.
  destruct (FetchStripeWebhook.updateStripePaymentHandler _ _ _ _ _ _) as [c w'].
  cbn [fst snd] in *. now rewrite Hret.
Qed.

End webhook_facts.

(** ** The deployed pair *)

Lemma to_json_obj fs : to_json (Obj fs) = Obj (to_json_fields fs).
Proof. reflexivity. Qed.





Section deployment_facts.
Variable env : process_env.
Variable firestore_accepts : string -> string -> value -> bool.
Variable constructEvent : payload -> value -> value -> completion value.
Variable internet : string -> payload -> http_reply.
Variable clock : nat -> string.

Local Abbreviation network := (Deployment.site_network env firestore_accepts internet).
Local Abbreviation updateDb := (FetchStripeWebhook.updateDb env network clock).





End deployment_facts.

(** * Properties of the specification *)

(** ** Authorisation of the update-payment endpoint *)

(** With no admin key configured, a request without a [key] passes the
    test: [undefined !== undefined] is false. *)
Remark keyless_request_passes_without_admin_key env event :
  VITE_SITE_ADMIN_AUTHORIZED_KEY env = None ->
  get_opt (queryStringParameters event) "key" = Undefined ->
  rejects env event = false.
Proof.
  intros Hkey Hq. unfold rejects, UpdateStripePayments.AdminAuthorizedKey.
  rewrite Hkey, Hq. cbn. apply andb_false_r.
Qed.



(** ** The guard of the recorder *)

(** C10.  When the event type is falsy, or [typeof data] is not [object], or
    [data] has no keys, [updateDb] resolves to [null] after one error line:
    no request leaves for the update-payment endpoint, so neither a write
    nor an email can follow. *)
Theorem updateDb_guard_returns_null
    env network clock stripeEventType data w :
  truthy stripeEventType = false
  \/ typeof data <> "object"
  \/ object_keys data = Returned [] ->
  let run := FetchStripeWebhook.updateDb env network clock stripeEventType data w in
  fst run = Returned Null
  /\ posts (effects_since w (snd run)) = []
  /\ writes (effects_since w (snd run)) = []
  /\ db (snd run) = db w.
Proof.
  intros H run. subst run. rewrite updateDb_guard by assumption.
  cbn [fst snd]. repeat split; since; reflexivity.
Qed.

Lemma updateDb_guard_returns_null_witness :
  (truthy (Str "charge.succeeded") = false
   \/ typeof (Obj []) <> "object"
   \/ object_keys (Obj []) = Returned [])
  /\ fst (FetchStripeWebhook.updateDb Sample.dev
            (Deployment.site_network Sample.dev Sample.accepting Sample.mail_ok)
            Sample.clock (Str "charge.succeeded") (Obj []) Sample.empty)
     = Returned Null.
Proof.
  split; [right; right; reflexivity|].
  apply (updateDb_guard_returns_null Sample.dev
           (Deployment.site_network Sample.dev Sample.accepting Sample.mail_ok)
           Sample.clock (Str "charge.succeeded") (Obj []) Sample.empty).
  right; right; reflexivity.
Defined.

(** [null] passes the [typeof] test and is none of the three cases: on it
    [Object.keys] throws before the [try], so the promise is rejected; still
    no request leaves. *)
Remark updateDb_null_data_rejects env network clock stripeEventType w :
  truthy stripeEventType = true ->
  FetchStripeWebhook.updateDb env network clock stripeEventType Null w
  = (Threw "TypeError: Cannot convert undefined or null to object", w).
Proof.
  intros Ht. unfold_updateDb. now rewrite Ht.
Qed.

(** ** The webhook's answers *)

(** C5.  When the provider's signature check throws (bad or missing
    [stripe-signature] header), the webhook answers 400 with the body
    [Webhook Error: <message>].  The classifier and the recorder are never
    entered: the only effect is the error line about the signature, so there
    is no classifier log line, no outbound request (hence no database write
    and no email), and the store is unchanged. *)
Theorem signature_failure_yields_400
    env constructEvent network clock event msg w :
  constructEvent (body event) (get_opt (Obj (headers event)) "stripe-signature")
    (env_value (VITE_AUTH_STRIPE_WEBHOOK_SECRET env)) = Threw msg ->
  let run := FetchStripeWebhook.handler env constructEvent network clock event w in
  fst run
  = Returned {| statusCode := 400;
                response_body := PlainText ("Webhook Error: " +:+ msg) |}
  /\ effects_since w (snd run)
     = [ConsoleError ["Webhook signature verification failed:"; msg]]
  /\ posts (effects_since w (snd run)) = []
  /\ writes (effects_since w (snd run)) = []
  /\ db (snd run) = db w.
Proof.
  intros H run. subst run. rewrite (handler_signature_failure _ _ _ _ _ _ _ H).
  cbn [fst snd]. repeat split; since; reflexivity.
Qed.

Lemma signature_failure_yields_400_witness :
  Sample.constructEvent
    (body (Sample.unsigned (Sample.stripe_event "charge.succeeded" Sample.charge)))
    (get_opt (Obj (headers (Sample.unsigned
                              (Sample.stripe_event "charge.succeeded" Sample.charge))))
       "stripe-signature")
    (env_value (VITE_AUTH_STRIPE_WEBHOOK_SECRET Sample.dev))
  = Threw "Unable to extract timestamp and signatures from header"
  /\ fst (Deployment.webhook Sample.dev Sample.accepting Sample.constructEvent
            Sample.mail_ok Sample.clock
            (Sample.unsigned (Sample.stripe_event "charge.succeeded" Sample.charge))
            Sample.empty)
     = Returned {| statusCode := 400;
                   response_body :=
                     PlainText ("Webhook Error: "
                                +:+ "Unable to extract timestamp and signatures from header") |}.
Proof.
  split; [reflexivity|].
  apply (signature_failure_yields_400 Sample.dev Sample.constructEvent
           (Deployment.site_network Sample.dev Sample.accepting Sample.mail_ok)
           Sample.clock
           (Sample.unsigned (Sample.stripe_event "charge.succeeded" Sample.charge))
           "Unable to extract timestamp and signatures from header" Sample.empty).
  reflexivity.
Defined.



(** C8.  A verified event whose type is none of the [switch] labels (for
    instance [customer.created]) is skipped: the webhook writes one log line
    naming the type and answers 200; no request leaves for the update-payment
    endpoint, so there is no database call, no error line is written and
    nothing is thrown. *)
Theorem unknown_event_is_skipped
    env constructEvent network clock event stripeEvent w :
  constructEvent (body event) (get_opt (Obj (headers event)) "stripe-signature")
    (env_value (VITE_AUTH_STRIPE_WEBHOOK_SECRET env)) = Returned stripeEvent ->
  (forall name, In name handled_events -> get_opt stripeEvent "type" <> Str name) ->
  let run := FetchStripeWebhook.handler env constructEvent network clock event w in
  fst run
  = Returned {| statusCode := 200;
                response_body := JsonText (Obj [("received", Bool true)]) |}
  /\ effects_since w (snd run)
     = [ConsoleLog ["No matching case for event type:";
                    to_display (get_opt stripeEvent "type")]]
  /\ posts (effects_since w (snd run)) = []
  /\ writes (effects_since w (snd run)) = []
  /\ errors (effects_since w (snd run)) = []
  /\ db (snd run) = db w.
Proof.
  intros H Htype run. subst run.
  rewrite (handler_verified _ _ _ _ _ _ _ H), classifier_default by assumption.
  cbn [fst snd]. repeat split; since; reflexivity.
Qed.

Lemma unknown_event_is_skipped_witness :
  Sample.constructEvent
    (body (Sample.signed (Sample.stripe_event "customer.created" (Obj [("id", Str "cus_1")]))))
    (get_opt (Obj (headers (Sample.signed
                              (Sample.stripe_event "customer.created"
                                 (Obj [("id", Str "cus_1")])))))
       "stripe-signature")
    (env_value (VITE_AUTH_STRIPE_WEBHOOK_SECRET Sample.dev))
  = Returned (Sample.stripe_event "customer.created" (Obj [("id", Str "cus_1")]))
  /\ (forall name, In name handled_events ->
        get_opt (Sample.stripe_event "customer.created" (Obj [("id", Str "cus_1")])) "type"
        <> Str name)
  /\ writes (effects_since Sample.empty
               (snd (Deployment.webhook Sample.dev Sample.accepting Sample.constructEvent
                       Sample.mail_ok Sample.clock
                       (Sample.signed (Sample.stripe_event "customer.created"
                                         (Obj [("id", Str "cus_1")])))
                       Sample.empty)))
     = [].
Proof.
  assert (forall name, In name handled_events ->
            get_opt (Sample.stripe_event "customer.created" (Obj [("id", Str "cus_1")])) "type"
            <> Str name) as Hnone.
  { intros name Hin. cbn in Hin.
    repeat (destruct Hin as [<-|Hin]; [discriminate|]). destruct Hin. }
  split; [reflexivity|]. split; [exact Hnone|].
  apply (unknown_event_is_skipped Sample.dev Sample.constructEvent
           (Deployment.site_network Sample.dev Sample.accepting Sample.mail_ok)
           Sample.clock
           (Sample.signed (Sample.stripe_event "customer.created" (Obj [("id", Str "cus_1")])))
           (Sample.stripe_event "customer.created" (Obj [("id", Str "cus_1")]))
           Sample.empty);
    [reflexivity|exact Hnone].
Defined.

(** ** Routing and keys *)





(** The same on a payment-intent event, whose own [id] is the key. *)
Example payment_intent_event_is_keyed_by_id :
  writes (effects_since Sample.empty
            (snd (Deployment.webhook Sample.dev Sample.accepting Sample.constructEvent
                    Sample.mail_ok Sample.clock
                    (Sample.signed (Sample.stripe_event "payment_intent.succeeded"
                                      Sample.payment_intent))
                    Sample.empty)))
  = [("rentalPayments", "pi_1", true)].
Proof. vm_compute. reflexivity. Qed.

(** Outside development mode and with an admin key configured, the
    endpoint turns the webhook's keyless call away: nothing is written, the
    recorder logs the failure, and the webhook still answers 200. *)
Example production_turns_the_webhook_away :
  let run :=
    Deployment.webhook Sample.production Sample.accepting Sample.constructEvent
      Sample.mail_ok Sample.clock
      (Sample.signed (Sample.stripe_event "charge.succeeded" Sample.charge))
      Sample.empty in
  internal_call_rejected Sample.production = true
  /\ writes (effects_since Sample.empty (snd run)) = []
  /\ errors (effects_since Sample.empty (snd run))
     = [["problem fetching required token"];
        ["failed to update db."];
        ["updateDb error:"; "Failed to update DB: Unauthorized"]]
  /\ fst run = Returned FetchStripeWebhook.received.
Proof. cbv zeta. repeat split; vm_compute; reflexivity. Qed.

(** ** Merge-writes *)



(** A later, poorer record for the same document: the fields the earlier
    record wrote stay, the named ones take the new value. *)
Example later_record_keeps_earlier_fields :
  let first := Sample.update_request (Str "s3cret") Sample.rent_record in
  let later :=
    Sample.update_request (Str "s3cret")
      (Obj [("stripePaymentIntentID", Str "pi_1");
            ("createdBy", Str "tenant_1");
            ("status", Str "paid")]) in
  let deliver event w :=
    snd (UpdateStripePayments.handler Sample.production Sample.accepting Sample.mail_ok
           event w) in
  exists stored,
    db (deliver later (deliver first Sample.empty)) !! ("rents", "pi_1") = Some stored
    /\ lookup_field "tenantEmail" stored = Some (Str "a@b.com")
    /\ lookup_field "rentAmount" stored = Some (Str "150000")
    /\ lookup_field "status" stored = Some (Str "paid")
    /\ List.length stored = 18.
Proof.
  cbv zeta. eexists. split; [vm_compute; reflexivity|]. repeat split.
Qed.

(** A bare record for the same payment intent goes to the other collection
    and leaves the rent document as it was. *)
Example bare_record_leaves_rent_document :
  let first := Sample.update_request (Str "s3cret") Sample.rent_record in
  let bare :=
    Sample.update_request (Str "s3cret")
      (Obj [("stripePaymentIntentID", Str "pi_1");
            ("method", Str "stripe");
            ("status", Str "succeeded");
            ("amount", Num 150000);
            ("stripeEventType", Str "payment_intent.succeeded")]) in
  let deliver event w :=
    snd (UpdateStripePayments.handler Sample.production Sample.accepting Sample.mail_ok
           event w) in
  db (deliver bare (deliver first Sample.empty)) !! ("rents", "pi_1")
  = db (deliver first Sample.empty) !! ("rents", "pi_1")
  /\ is_Some (db (deliver bare (deliver first Sample.empty)) !! ("rentalPayments", "pi_1"))
  /\ db (deliver first Sample.empty) !! ("rentalPayments", "pi_1") = None.
Proof.
  cbv zeta. split; [vm_compute; reflexivity|]. split; [vm_compute; eauto|].
  vm_compute. reflexivity.
Qed.

(** A full replacement, which the handler never asks for, would have
    dropped them. *)
Example replacement_would_erase :
  let stored := [("tenantEmail", Str "a@b.com"); ("status", Str "complete")] in
  let data := [("status", Str "paid")] in
  lookup_field "tenantEmail" (Firestore.write false (Some stored) data) = None
  /\ lookup_field "tenantEmail" (Firestore.write true (Some stored) data)
     = Some (Str "a@b.com").
Proof. split; reflexivity. Qed.

(** The webhook stamps [createdOn] and [updatedOn] afresh on every delivery
    of a provider event, so a second delivery of the same event overwrites
    these two fields and nothing else. *)
Example redelivered_event_is_restamped :
  let event := Sample.signed (Sample.stripe_event "charge.succeeded" Sample.charge) in
  let deliver clock w :=
    snd (Deployment.webhook Sample.dev Sample.accepting Sample.constructEvent
           Sample.mail_ok clock event w) in
  let later (n : nat) :=
    match n with
    | O => "2025-01-02T00:00:00.000Z"
    | S _ => "2025-01-02T00:00:00.001Z"
    end in
  db (deliver later (deliver Sample.clock Sample.empty))
  = db (deliver later Sample.empty)
  /\ db (deliver later Sample.empty) !! ("rentalPayments", "pi_1")
     = Some [("stripePaymentIntentID", Str "pi_1");
             ("method", Str "stripe");
             ("status", Str "succeeded");
             ("amount", Num 150000);
             ("stripeEventType", Str "charge.succeeded");
             ("createdOn", Str "2025-01-02T00:00:00.000Z");
             ("updatedOn", Str "2025-01-02T00:00:00.001Z")].
Proof.
  cbv zeta. split; vm_compute; reflexivity.
Qed.

(** ** Notification and the endpoint's answer *)

(** For a metadata-bearing record whose write the database accepts, the
    endpoint posts exactly one request, to the email function, and takes its
    recipient from the record's [customer_email]. *)
Lemma notification_is_posted_once env firestore_accepts internet event fs id w :
  rejects env event = false ->
  body event = JsonText (Obj fs) ->
  lookup_field "stripePaymentIntentID" fs = Some (Str id) -> id <> "" ->
  truthy (get_opt (Obj fs) "createdBy") = true ->
  firestore_accepts "rents" id (Obj fs) = true ->
  posts (effects_since w
           (snd (UpdateStripePayments.handler env firestore_accepts internet event w)))
  = [(UpdateStripePayments.send_email_url env,
      JSON_stringify
        (Obj [("to", get_opt (Obj fs) "customer_email");
              ("subject", Str UpdateStripePayments.subject);
              ("text", Str (UpdateStripePayments.text (Obj fs)))]))].
Proof.
  intros Hrej Hbody Hid Hne Hmeta Hacc.
  rewrite (handler_metadata_record _ _ _ _ fs id) by assumption.
  cbv zeta. rewrite Hacc.
  destruct (internet _ _) as [[|] ?|?]; cbn [snd]; since; reflexivity.
Qed.

(** A record that has a [tenantEmail] but no [customer_email], as every
    record the webhook posts, is notified without a recipient. *)
Lemma notification_without_customer_email fs :
  lookup_field "customer_email" fs = None ->
  JSON_stringify
    (Obj [("to", get_opt (Obj fs) "customer_email");
          ("subject", Str UpdateStripePayments.subject);
          ("text", Str (UpdateStripePayments.text (Obj fs)))])
  = JsonText
      (Obj [("subject", Str UpdateStripePayments.subject);
            ("text", Str (UpdateStripePayments.text (Obj fs)))]).
Proof. intros H. cbn [get_opt]. now rewrite H. Qed.


(** C1 (the code departs from it).  The deployed pair, run on a verified
    [checkout.session.completed] event whose metadata names the tenant's
    address [a@b.com]: the record is stored in [rents] with
    [tenantEmail = a@b.com] and exactly one email request is posted, but the
    request has no [to] field at all, because the endpoint reads the
    recipient from [customer_email], which the posted record does not
    have. *)
Example checkout_notification_has_no_recipient :
  let run :=
    Deployment.webhook Sample.dev Sample.accepting Sample.constructEvent Sample.mail_ok
      Sample.clock
      (Sample.signed (Sample.stripe_event "checkout.session.completed"
                        Sample.checkout_session))
      Sample.empty in
  (exists stored,
     db (snd run) !! ("rents", "pi_1") = Some stored
     /\ lookup_field "tenantEmail" stored = Some (Str "a@b.com"))
  /\ exists mail,
       posts (effects_since Sample.empty (snd run))
       = [(FetchStripeWebhook.update_payments_url Sample.dev, JsonText Sample.rent_record);
          (UpdateStripePayments.send_email_url Sample.dev, JsonText (Obj mail))]
       /\ lookup_field "to" mail = None
       /\ map fst mail = ["subject"; "text"].
Proof.
  cbv zeta. split.
  - eexists. split; [vm_compute; reflexivity|reflexivity].
  - eexists. split; [vm_compute; reflexivity|]. split; reflexivity.
Qed.

(** The endpoint's answer after an accepted write: 200 with
    [{success: true, id}] for a record without metadata, and for one with
    metadata when the email function replies with success. *)
Lemma accepted_write_answers_success env firestore_accepts internet event fs id w :
  rejects env event = false ->
  body event = JsonText (Obj fs) ->
  lookup_field "stripePaymentIntentID" fs = Some (Str id) -> id <> "" ->
  firestore_accepts (partition (Obj fs)) id (Obj fs) = true ->
  truthy (get_opt (Obj fs) "createdBy") = false
  \/ (exists statusText,
        internet (UpdateStripePayments.send_email_url env)
          (JSON_stringify
             (Obj [("to", get_opt (Obj fs) "customer_email");
                   ("subject", Str UpdateStripePayments.subject);
                   ("text", Str (UpdateStripePayments.text (Obj fs)))]))
        = Response true statusText) ->
  fst (UpdateStripePayments.handler env firestore_accepts internet event w)
  = Returned (Some {| statusCode := 200;
                      response_body :=
                        JsonText (Obj [("success", Bool true); ("id", Str id)]) |}).
Proof.
  unfold partition. intros Hrej Hbody Hid Hne Hacc Hcase.
  destruct (truthy (get_opt (Obj fs) "createdBy")) eqn:Hmeta.
  - destruct Hcase as [?|[statusText Hmail]]; [discriminate|].
    rewrite (handler_metadata_record _ _ _ _ fs id) by assumption.
    cbv zeta. now rewrite Hacc, Hmail.
  - rewrite (handler_bare_record _ _ _ _ fs id) by assumption.
    cbv zeta. now rewrite Hacc.
Qed.

(** When the email function replies without success, the handler leaves
    through a bare [return], after the write. *)
Lemma failed_notification_answers_nothing env firestore_accepts internet event fs id w statusText :
  rejects env event = false ->
  body event = JsonText (Obj fs) ->
  lookup_field "stripePaymentIntentID" fs = Some (Str id) -> id <> "" ->
  truthy (get_opt (Obj fs) "createdBy") = true ->
  firestore_accepts "rents" id (Obj fs) = true ->
  internet (UpdateStripePayments.send_email_url env)
    (JSON_stringify
       (Obj [("to", get_opt (Obj fs) "customer_email");
             ("subject", Str UpdateStripePayments.subject);
             ("text", Str (UpdateStripePayments.text (Obj fs)))]))
  = Response false statusText ->
  fst (UpdateStripePayments.handler env firestore_accepts internet event w)
  = Returned None.
Proof.
  intros Hrej Hbody Hid Hne Hmeta Hacc Hmail.
  rewrite (handler_metadata_record _ _ _ _ fs id) by assumption.
  cbv zeta. now rewrite Hacc, Hmail.
Qed.

(** C7 (the code departs from it).  An authorised request with a
    metadata-bearing record, a database that accepts the write and an email
    function that replies 502: the document is stored, yet the handler
    returns [undefined] instead of the 200 response with
    [{success: true, id}]. *)
Example email_failure_loses_the_response :
  let run :=
    UpdateStripePayments.handler Sample.production Sample.accepting Sample.mail_down
      (Sample.update_request (Str "s3cret") Sample.rent_record) Sample.empty in
  fst run = Returned None
  /\ fst run
     <> Returned (Some {| statusCode := 200;
                          response_body :=
                            JsonText (Obj [("success", Bool true); ("id", Str "pi_1")]) |})
  /\ is_Some (db (snd run) !! ("rents", "pi_1"))
  /\ writes (effects_since Sample.empty (snd run)) = [("rents", "pi_1", true)].
Proof.
  cbv zeta. split; [vm_compute; reflexivity|].
  split; [vm_compute; discriminate|].
  split; [vm_compute; eauto|vm_compute; reflexivity].
Qed.

(** * Further properties *)

(** ** The update-payment endpoint: failures, notification, answers *)

Section endpoint_more.
Variable env : process_env.
Variable firestore_accepts : string -> string -> value -> bool.
Variable internet : string -> payload -> http_reply.

Local Abbreviation handler := (UpdateStripePayments.handler env firestore_accepts internet).

(** Either the body is a record with a non-empty string identifier, or no
    reading of it yields one. *)
Lemma identifier_or_none event :
  (exists fs id,
     body event = JsonText (Obj fs)
     /\ lookup_field "stripePaymentIntentID" fs = Some (Str id) /\ id <> "")
  \/ (forall data id,
        body event = JsonText data ->
        get_opt data "stripePaymentIntentID" = Str id -> id = "").
Proof.
  destruct (body event) as [data|s]; [|right; discriminate].
  destruct data as [ | | | | | |fs]; try (right; intros ? ? [= <-]; discriminate).
  destruct (lookup_field "stripePaymentIntentID" fs) as [[ | | | |id| | ]|] eqn:Hid;
    try (right; intros ? ? [= <-]; cbn [get_opt]; rewrite Hid; discriminate).
  destruct (String.eqb_spec id "") as [->|Hne].
  - right. intros ? ? [= <-]. cbn [get_opt]. rewrite Hid. now intros [= <-].
  - left. eauto.
Qed.

(** Without a usable identifier the admitted request ends in the [catch]:
    one error line, then the error is thrown again. *)
Lemma handler_without_identifier event w :
  rejects env event = false ->
  (forall data id,
     body event = JsonText data ->
     get_opt data "stripePaymentIntentID" = Str id -> id = "") ->
  exists err,
    handler event w
    = (Threw err,
       emit (ConsoleError
               ["error updating the database with rent details from webhook handler. ";
                err]) w).
Proof.
  unfold rejects. intros Hrej Hnone.
  destruct (body event) as [data|s] eqn:Hbody.
  2: { eexists. unfold_handler. rewrite Hrej, Hbody. reflexivity. }
  specialize (Hnone data).
  destruct data as [ | | | | | |fs];
    try (eexists; unfold_handler; rewrite Hrej, Hbody; reflexivity).
  cbn [get_opt] in Hnone.
  destruct (lookup_field "stripePaymentIntentID" fs) as [docId|] eqn:Hid.
  2: { eexists. unfold_handler. rewrite Hrej, Hbody. cbn [JSON_parse get get_opt].
       rewrite Hid. reflexivity. }
  destruct docId as [ | | | |id| | ];
    try (eexists; unfold_handler; rewrite Hrej, Hbody; cbn [JSON_parse get get_opt];
         rewrite Hid; reflexivity).
  rewrite (Hnone id eq_refl eq_refl) in Hid.
  eexists. unfold_handler. rewrite Hrej, Hbody. cbn [JSON_parse get get_opt].
  rewrite Hid. reflexivity.
Qed.

(** The run on an admitted request with a usable identifier, in one
    equation for both collections. *)
Lemma handler_with_identifier event fs id w :
  rejects env event = false ->
  body event = JsonText (Obj fs) ->
  lookup_field "stripePaymentIntentID" fs = Some (Str id) -> id <> "" ->
  let collection := partition (Obj fs) in
  let w1 := emit (FirestoreSet collection id (Obj fs) true) w in
  let stored :=
    {| db := <[(collection, id) :=
                Firestore.write true (db w !! (collection, id)) fs]> (db w);
       trace := trace w1 |} in
  let answer := Returned (Some (UpdateStripePayments.success (collection, id))) in
  handler event w
  = if firestore_accepts collection id (Obj fs) then
      if truthy (get_opt (Obj fs) "createdBy") then
        let w2 := emit (HttpPost (UpdateStripePayments.send_email_url env)
                          (notification (Obj fs))) stored in
        match internet (UpdateStripePayments.send_email_url env) (notification (Obj fs)) with
        | Response true _ => (answer, w2)
        | Response false _ =>
            (Returned None,
             emit (ConsoleError
                     ["unable to send email notification from stripe webhook handler."]) w2)
        | NetworkError msg =>
            (Threw msg,
             emit (ConsoleError
                     ["error updating the database with rent details from webhook handler. ";
                      msg]) w2)
        end
      else (answer, stored)
    else
      (Threw "the write was rejected",
       emit (ConsoleError
               ["error updating the database with rent details from webhook handler. ";
                "the write was rejected"]) w1).
Proof.
  intros Hrej Hbody Hid Hne. unfold partition, notification. cbv zeta.
  destruct (truthy (get_opt (Obj fs) "createdBy")) eqn:Hmeta.
  - now rewrite (handler_metadata_record _ _ _ _ fs id).
  - now rewrite (handler_bare_record _ _ _ _ fs id).
Qed.

End endpoint_more.


(** X2.  What the endpoint writes and what the store holds afterwards do
    not depend on the email service: whether the notification succeeds,
    fails or cannot be sent, the same write was made before. *)
Theorem store_ignores_the_email_service
    env firestore_accepts internet1 internet2 event w :
  db (snd (UpdateStripePayments.handler env firestore_accepts internet1 event w))
  = db (snd (UpdateStripePayments.handler env firestore_accepts internet2 event w))
  /\ writes (effects_since w
               (snd (UpdateStripePayments.handler env firestore_accepts internet1 event w)))
     = writes (effects_since w
                 (snd (UpdateStripePayments.handler env firestore_accepts internet2 event w))).
Proof.
  destruct (rejects env event) eqn:Hrej.
  { now rewrite !handler_rejects by assumption. }
  destruct (identifier_or_none event) as [(fs & id & Hbody & Hid & Hne)|Hnone].
  2: { destruct (handler_without_identifier env firestore_accepts internet1
                   event w Hrej Hnone) as [err1 ->].
       destruct (handler_without_identifier env firestore_accepts internet2
                   event w Hrej Hnone) as [err2 ->].
       cbn [snd]. split; [reflexivity|]. since. reflexivity. }
  rewrite !(handler_with_identifier _ _ _ _ fs id) by assumption. cbv zeta.
  destruct (firestore_accepts _ _ _); [|split; reflexivity].
  destruct (truthy _); [|split; reflexivity].
  destruct (internet1 _ _) as [[|] ?|?], (internet2 _ _) as [[|] ?|?];
    cbn [snd]; (split; [reflexivity|since; reflexivity]).
Qed.

(** X3.  An admitted request whose body is not JSON, or whose record has no
    non-empty string [stripePaymentIntentID], is not processed: the handler
    writes one error line and throws; no database call and no outbound
    request is made and the store is unchanged. *)
Theorem record_without_identifier_is_refused env firestore_accepts internet event w :
  rejects env event = false ->
  (forall data id,
     body event = JsonText data ->
     get_opt data "stripePaymentIntentID" = Str id -> id = "") ->
  let run := UpdateStripePayments.handler env firestore_accepts internet event w in
  exists err,
    fst run = Threw err
    /\ effects_since w (snd run)
       = [ConsoleError
            ["error updating the database with rent details from webhook handler. "; err]]
    /\ db (snd run) = db w.
Proof.
  intros Hrej Hnone run. subst run.
  destruct (handler_without_identifier env firestore_accepts internet event w Hrej Hnone)
    as [err ->].
  exists err. cbn [fst snd]. repeat split. since. reflexivity.
Qed.

Lemma record_without_identifier_is_refused_witness :
  rejects Sample.dev (Sample.update_request Undefined (Obj [("status", Str "paid")])) = false
  /\ (forall data id,
        body (Sample.update_request Undefined (Obj [("status", Str "paid")])) = JsonText data ->
        get_opt data "stripePaymentIntentID" = Str id -> id = "")
  /\ exists err,
       fst (UpdateStripePayments.handler Sample.dev Sample.accepting Sample.mail_ok
              (Sample.update_request Undefined (Obj [("status", Str "paid")])) Sample.empty)
       = Threw err.
Proof.
  assert (forall data id,
            body (Sample.update_request Undefined (Obj [("status", Str "paid")]))
            = JsonText data ->
            get_opt data "stripePaymentIntentID" = Str id -> id = "") as Hnone.
  { intros data id [= <-]. discriminate. }
  split; [reflexivity|]. split; [exact Hnone|].
  destruct (record_without_identifier_is_refused Sample.dev Sample.accepting Sample.mail_ok
              (Sample.update_request Undefined (Obj [("status", Str "paid")]))
              Sample.empty eq_refl Hnone) as (err & Herr & _).
  exists err. exact Herr.
Defined.





(** X6.  Whenever the handler returns a response object, it is one of two:
    401 [Unauthorized], exactly for a request it turns away, or 200 with
    [{success: true, id}].  Every failure after admission is thrown, none is
    answered with a status of its own. *)
Theorem endpoint_answers_401_or_200 env firestore_accepts internet event w r :
  fst (UpdateStripePayments.handler env firestore_accepts internet event w)
  = Returned (Some r) ->
  (rejects env event = true
   /\ r = {| statusCode := 401; response_body := PlainText "Unauthorized" |})
  \/ (rejects env event = false
      /\ exists id,
           r = {| statusCode := 200;
                  response_body :=
                    JsonText (Obj [("success", Bool true); ("id", Str id)]) |}).
Proof.
  destruct (rejects env event) eqn:Hrej.
  { rewrite handler_rejects by assumption. cbn [fst]. intros [= <-]. now left. }
  right. split; [reflexivity|].
  destruct (identifier_or_none event) as [(fs & id & Hbody & Hid & Hne)|Hnone].
  2: { destruct (handler_without_identifier env firestore_accepts internet
                   event w Hrej Hnone) as [err Herr].
       rewrite Herr in H. discriminate. }
  rewrite (handler_with_identifier _ _ _ _ fs id) in H by assumption. cbv zeta in H.
  destruct (firestore_accepts _ _ _); [|discriminate].
  exists id. destruct (truthy _).
  - destruct (internet _ _) as [[|] ?|?]; cbn [fst] in H; try discriminate.
    now injection H as <-.
  - cbn [fst] in H. now injection H as <-.
Qed.

Lemma endpoint_answers_401_or_200_witness :
  fst (UpdateStripePayments.handler Sample.production Sample.accepting Sample.mail_ok
         (Sample.update_request (Str "guess") Sample.rent_record) Sample.empty)
  = Returned (Some {| statusCode := 401; response_body := PlainText "Unauthorized" |})
  /\ ((rejects Sample.production (Sample.update_request (Str "guess") Sample.rent_record)
       = true
       /\ {| statusCode := 401; response_body := PlainText "Unauthorized" |}
          = {| statusCode := 401; response_body := PlainText "Unauthorized" |})
      \/ (rejects Sample.production (Sample.update_request (Str "guess") Sample.rent_record)
          = false
          /\ exists id,
               {| statusCode := 401; response_body := PlainText "Unauthorized" |}
               = {| statusCode := 200;
                    response_body :=
                      JsonText (Obj [("success", Bool true); ("id", Str id)]) |})).
Proof.
  split; [reflexivity|].
  apply (endpoint_answers_401_or_200 Sample.production Sample.accepting Sample.mail_ok
           (Sample.update_request (Str "guess") Sample.rent_record) Sample.empty).
  reflexivity.
Defined.

(** ** Serialisation and merge, by key *)

Lemma fresh_key_to_json_fields k fs :
  fresh_key k fs = true -> fresh_key k (to_json_fields fs) = true.
Proof.
  induction fs as [|[k' x] fs IH]; [reflexivity|]. cbn [fresh_key to_json_fields].
  intros [Hk Hrest]%andb_prop.
  destruct x; cbn [fresh_key]; rewrite ?Hk; auto.
Qed.


(** Reading a property after serialisation is reading it before. *)
Lemma get_opt_to_json k fs :
  distinct_keys fs = true ->
  get_opt (to_json (Obj fs)) k = to_json (get_opt (Obj fs) k).
Proof.
  rewrite to_json_obj. cbn [get_opt].
  induction fs as [|[k' x] fs IH]; [reflexivity|].
  cbn [distinct_keys lookup_field to_json_fields].
  intros [Hk Hrest]%andb_prop.
  destruct (String.eqb k k') eqn:E.
  - apply String.eqb_eq in E; subst k'.
    assert (lookup_field k (to_json_fields fs) = None) as Hnone
      by (apply fresh_key_lookup; now apply fresh_key_to_json_fields).
    destruct x; cbn [lookup_field]; rewrite ?String.eqb_refl; try reflexivity.
    now rewrite Hnone.
  - destruct x; cbn [lookup_field]; rewrite ?E; auto.
Qed.

Lemma keys_to_json_fields fs : incl (map fst (to_json_fields fs)) (map fst fs).
Proof.
  induction fs as [|[k x] fs IH]; [easy|]. cbn [to_json_fields map fst].
  destruct x; cbn [map fst];
    try (apply incl_cons; [now left|now apply incl_tl]).
  now apply incl_tl.
Qed.


(** ** The recorder: what it posts and what it reports *)

Section recorder_more.
Variable env : process_env.
Variable constructEvent : payload -> value -> value -> completion value.
Variable network : string -> payload -> world -> http_reply * world.
Variable clock : nat -> string.

Local Abbreviation updateDb := (FetchStripeWebhook.updateDb env network clock).

(** Past the guard, a record without metadata is posted once, and what has
    been posted stays on the trace whatever the network does next. *)
Lemma updateDb_bare_posts stripeEventType fs e w :
  appends network ->
  truthy stripeEventType = true -> fs <> [] ->
  truthy (get_opt (Obj fs) "metadata") = false ->
  exists rest,
    posts (effects_since w (snd (updateDb stripeEventType (Obj fs) (emit e w))))
    = posts [e]
      ++ (FetchStripeWebhook.update_payments_url env,
          JSON_stringify
            (Obj [("stripePaymentIntentID", get_opt (Obj fs) "id");
                  ("method", Str "stripe");
                  ("status", get_opt (Obj fs) "status");
                  ("amount", get_opt (Obj fs) "amount");
                  ("stripeEventType", stripeEventType);
                  ("createdOn", Str (clock 0));
                  ("updatedOn", Str (clock 1))])) :: rest.
Proof.
  intros Happ Ht Hfs Hmeta.
  rewrite updateDb_bare by assumption. cbv zeta.
  set (url := FetchStripeWebhook.update_payments_url env).
  set (body := JSON_stringify _).
  destruct (Happ url body (emit (HttpPost url body) (emit e w))) as [es Hes].
  assert (forall es', posts (e :: es') = posts [e] ++ posts es') as Hsplit
    by (intros es'; now destruct e).
  destruct (network url body _) as [[[|] ?|?] w1]; cbn [snd] in *;
    unfold effects_since, emit in *; cbn [trace] in *; rewrite Hes;
    rewrite <- ?app_assoc; rewrite drop_app_length; cbn [app];
    rewrite Hsplit; cbn [posts]; eexists; reflexivity.
Qed.

End recorder_more.

Lemma acknowledging_appends : appends Fixture.acknowledging.
Proof. intros url body w. exists []. cbn. now rewrite app_nil_r. Qed.

(** X7.  For a verified charge event of any of the four kinds the webhook
    posts one record to the update-payment endpoint, and the record has the
    seven fields of a bare record only: its identifier is the payload's
    [payment_intent], status and amount are the payload's, and the payment
    method, its details and the receipt URL that the classifier extracts are
    not forwarded. *)
Theorem charge_event_posts_a_bare_record
    env constructEvent network clock event stripeEvent name w :
  appends network ->
  constructEvent (body event) (get_opt (Obj (headers event)) "stripe-signature")
    (env_value (VITE_AUTH_STRIPE_WEBHOOK_SECRET env)) = Returned stripeEvent ->
  get_opt stripeEvent "type" = Str name -> In name charge_events ->
  let eventDetails := get_opt (get_opt stripeEvent "data") "object" in
  exists record rest,
    posts (effects_since w
             (snd (FetchStripeWebhook.handler env constructEvent network clock event w)))
    = (FetchStripeWebhook.update_payments_url env, JsonText (Obj record)) :: rest
    /\ incl (map fst record) bare_record_keys
    /\ get_opt (Obj record) "stripePaymentIntentID"
       = to_json (get_opt eventDetails "payment_intent")
    /\ get_opt (Obj record) "status" = to_json (get_opt eventDetails "status")
    /\ get_opt (Obj record) "amount" = to_json (get_opt eventDetails "amount")
    /\ get_opt (Obj record) "stripeEventType" = Str name.
Proof.
  intros Happ Hsig Htype Hin eventDetails.
  rewrite (handler_verified _ _ _ _ _ _ _ Hsig), Htype. cbn [snd]. fold eventDetails.
  assert (truthy (Str name) = true) as Htruthy.
  { cbn in Hin. repeat (destruct Hin as [<-|Hin]; [reflexivity|]). destruct Hin. }
  destruct (classifier_charge env network clock name eventDetails w Hin)
    as (line & more & -> & Hmore).
  cbn [snd].
  destruct (updateDb_bare_posts env network clock (Str name)
              (("id", get_opt eventDetails "payment_intent")
               :: ("amount", get_opt eventDetails "amount")
               :: ("status", get_opt eventDetails "status") :: more)
              (ConsoleInfo [line]) w Happ Htruthy)
    as [rest Hposts]; [discriminate| |].
  { cbn [get_opt lookup_field String.eqb Ascii.eqb Bool.eqb]. now rewrite Hmore. }
  rewrite Hposts. cbn [posts app get_opt lookup_field String.eqb Ascii.eqb Bool.eqb].
  unfold JSON_stringify. rewrite to_json_obj.
  match goal with |- context [to_json_fields ?fields] => set (draft := fields) end.
  exists (to_json_fields draft), rest. split; [reflexivity|]. split.
  { apply keys_to_json_fields. }
  repeat split.
  - exact (get_opt_to_json "stripePaymentIntentID" draft eq_refl).
  - exact (get_opt_to_json "status" draft eq_refl).
  - exact (get_opt_to_json "amount" draft eq_refl).
  - exact (get_opt_to_json "stripeEventType" draft eq_refl).
Qed.

Lemma charge_event_posts_a_bare_record_witness :
  appends Fixture.acknowledging
  /\ Sample.constructEvent
       (body (Sample.signed (Sample.stripe_event "charge.succeeded" Sample.charge)))
       (get_opt (Obj (headers (Sample.signed
                                 (Sample.stripe_event "charge.succeeded" Sample.charge))))
          "stripe-signature")
       (env_value (VITE_AUTH_STRIPE_WEBHOOK_SECRET Sample.dev))
     = Returned (Sample.stripe_event "charge.succeeded" Sample.charge)
  /\ get_opt (Sample.stripe_event "charge.succeeded" Sample.charge) "type"
     = Str "charge.succeeded"
  /\ In "charge.succeeded" charge_events
  /\ exists record rest,
       posts (effects_since Sample.empty
                (snd (FetchStripeWebhook.handler Sample.dev Sample.constructEvent
                        Fixture.acknowledging Sample.clock
                        (Sample.signed (Sample.stripe_event "charge.succeeded" Sample.charge))
                        Sample.empty)))
       = (FetchStripeWebhook.update_payments_url Sample.dev, JsonText (Obj record)) :: rest
       /\ incl (map fst record) bare_record_keys.
Proof.
  assert (In "charge.succeeded" charge_events) as Hin by (cbn; tauto).
  split; [exact acknowledging_appends|]. split; [reflexivity|]. split; [reflexivity|].
  split; [exact Hin|].
  destruct (charge_event_posts_a_bare_record Sample.dev Sample.constructEvent
              Fixture.acknowledging Sample.clock
              (Sample.signed (Sample.stripe_event "charge.succeeded" Sample.charge))
              (Sample.stripe_event "charge.succeeded" Sample.charge)
              "charge.succeeded" Sample.empty acknowledging_appends eq_refl eq_refl Hin)
    as (record & rest & Hposts & Hkeys & _).
  exists record, rest. split; assumption.
Defined.

(** X8.  A checkout session that carries metadata but whose
    [payment_method_options] is [null] or missing is dropped by the
    recorder: reading the keys of the options throws inside the [try], so
    nothing is posted, one error line is written and the promise resolves to
    [false]. *)
Theorem session_without_options_is_dropped
    env network clock stripeEventType fs w :
  truthy stripeEventType = true ->
  truthy (get_opt (Obj fs) "metadata") = true ->
  get_opt (Obj fs) "payment_method_options" = Null
  \/ get_opt (Obj fs) "payment_method_options" = Undefined ->
  let run := FetchStripeWebhook.updateDb env network clock stripeEventType (Obj fs) w in
  fst run = Returned (Bool false)
  /\ effects_since w (snd run)
     = [ConsoleError ["updateDb error:";
                      "TypeError: Cannot convert undefined or null to object"]]
  /\ posts (effects_since w (snd run)) = []
  /\ db (snd run) = db w.
Proof.
  intros Ht Hmeta Hopts run. subst run.
  assert (fs <> []) as Hfs by (intros ->; discriminate).
  unfold_updateDb. rewrite Ht, Hmeta.
  destruct fs as [|f fs]; [congruence|].
  cbn [negb typeof String.eqb Ascii.eqb Bool.eqb object_keys map List.length Nat.eqb get].
  destruct Hopts as [-> | ->]; cbn [object_keys fst snd];
    repeat split; since; reflexivity.
Qed.

Lemma session_without_options_is_dropped_witness :
  truthy (Str "checkout.session.completed") = true
  /\ (exists fs,
        Fixture.session_without_options = Obj fs
        /\ truthy (get_opt (Obj fs) "metadata") = true
        /\ (get_opt (Obj fs) "payment_method_options" = Null
            \/ get_opt (Obj fs) "payment_method_options" = Undefined))
  /\ fst (FetchStripeWebhook.updateDb Sample.dev
            (Deployment.site_network Sample.dev Sample.accepting Sample.mail_ok)
            Sample.clock (Str "checkout.session.completed")
            Fixture.session_without_options Sample.empty)
     = Returned (Bool false).
Proof.
  split; [reflexivity|]. split.
  { eexists. split; [reflexivity|]. split; [reflexivity|left; reflexivity]. }
  refine (proj1 (session_without_options_is_dropped Sample.dev
                   (Deployment.site_network Sample.dev Sample.accepting Sample.mail_ok)
                   Sample.clock (Str "checkout.session.completed") _ Sample.empty
                   eq_refl _ _)).
  - reflexivity.
  - left. reflexivity.
Defined.



(** ** The deployed pair: stamps and tenants *)


Section deployment_more.
Variable env : process_env.
Variable firestore_accepts : string -> string -> value -> bool.
Variable internet : string -> payload -> http_reply.
Variable clock : nat -> string.

Local Abbreviation network := (Deployment.site_network env firestore_accepts internet).
Local Abbreviation updateDb := (FetchStripeWebhook.updateDb env network clock).



End deployment_more.





(** ** The checkout-session function *)

Lemma effects_since_refl w : effects_since w w = [].
Proof. unfold effects_since. apply drop_all. Qed.

(** X12.  The checkout-session function always answers, and never touches
    the store: 405 with no log line when the method is not [POST]; 200 with
    the session's [id] and [url] when the body parses and the provider
    opens the session; otherwise 400 with the error's message as [error],
    after one error line that carries the same message. *)
Theorem checkout_handler_always_answers env sessions_create event w :
  exists r w',
    CreateStripeCheckoutSession.handler env sessions_create event w = (Returned r, w')
    /\ db w' = db w
    /\ ((statusCode r = 405%Z /\ httpMethod event <> Str "POST"
         /\ effects_since w w' = []
         /\ response_body r = PlainText "Method Not Allowed")
        \/ (statusCode r = 200%Z /\ httpMethod event = Str "POST"
            /\ effects_since w w' = []
            /\ exists parsed session,
                 JSON_parse (event_body event) = Returned parsed
                 /\ sessions_create
                      (CreateStripeCheckoutSession.session_params env parsed)
                      (CreateStripeCheckoutSession.session_options parsed)
                    = Returned session
                 /\ response_body r
                    = JSON_stringify (Obj [("id", get_opt session "id");
                                           ("url", get_opt session "url")]))
        \/ (statusCode r = 400%Z /\ httpMethod event = Str "POST"
            /\ exists msg,
                 effects_since w w' = [ConsoleError ["Stripe Checkout Error:"; msg]]
                 /\ response_body r = JsonText (Obj [("error", Str msg)]))).
Proof.
  unfold_checkout.
  destruct (strict_eq (httpMethod event) (Str "POST")) eqn:Hmethod; cbn [negb].
  - apply strict_eq_str in Hmethod.
    destruct (JSON_parse (event_body event)) as [parsed|err] eqn:Hparse.
    + destruct (destructure parsed "rentAmount") as [checked|err] eqn:Hchecked.
      * assert (checked = parsed) as -> by (destruct parsed; now inversion Hchecked).
        destruct (sessions_create _ _) as [session|err] eqn:Hsession.
        -- destruct session; cbn [get];
             try (do 2 eexists; split; [reflexivity|]; split; [reflexivity|];
                  right; left; repeat split; try assumption;
                  [apply effects_since_refl|];
                  exists parsed; eexists; repeat split;
                  first [eassumption | reflexivity]);
             (do 2 eexists; split; [reflexivity|]; split; [reflexivity|];
              right; right; repeat split; try assumption;
              eexists; split; [since; reflexivity|reflexivity]).
        -- do 2 eexists; split; [reflexivity|]; split; [reflexivity|].
           right; right; repeat split; try assumption.
           eexists; split; [since; reflexivity|reflexivity].
      * do 2 eexists; split; [reflexivity|]; split; [reflexivity|].
        right; right; repeat split; try assumption.
        eexists; split; [since; reflexivity|reflexivity].
    + do 2 eexists; split; [reflexivity|]; split; [reflexivity|].
      right; right; repeat split; try assumption.
      eexists; split; [since; reflexivity|reflexivity].
  - do 2 eexists; split; [reflexivity|]; split; [reflexivity|].
    left. repeat split.
    + intros H. apply strict_eq_str in H. congruence.
    + apply effects_since_refl.
Qed.

(** X13.  The answer of the checkout-session function depends on the
    provider through one request only, the one made of the parsed body: two
    providers that agree on that request give the same answer and the same
    log, however they differ elsewhere; when the method is not [POST] the
    provider is not consulted at all. *)
Theorem checkout_handler_asks_the_provider_once env create1 create2 event w :
  (forall parsed,
     httpMethod event = Str "POST" ->
     JSON_parse (event_body event) = Returned parsed ->
     create1 (CreateStripeCheckoutSession.session_params env parsed)
       (CreateStripeCheckoutSession.session_options parsed)
     = create2 (CreateStripeCheckoutSession.session_params env parsed)
         (CreateStripeCheckoutSession.session_options parsed)) ->
  CreateStripeCheckoutSession.handler env create1 event w
  = CreateStripeCheckoutSession.handler env create2 event w.
Proof.
  intros Hagree. unfold_checkout.
  destruct (strict_eq (httpMethod event) (Str "POST")) eqn:Hmethod; cbn [negb];
    [|reflexivity].
  apply strict_eq_str in Hmethod.
  destruct (JSON_parse (event_body event)) as [parsed|err] eqn:Hparse; [|reflexivity].
  destruct (destructure parsed "rentAmount") as [checked|err] eqn:Hchecked;
    [|reflexivity].
  assert (checked = parsed) as -> by (destruct parsed; now inversion Hchecked).
  now rewrite (Hagree parsed Hmethod eq_refl).
Qed.

Lemma checkout_handler_asks_the_provider_once_witness :
  Desk.sessions_create (Obj []) (Obj [("stripeAccount", Str "acct_test")])
  <> Desk.sessions_create_or_test (Obj []) (Obj [("stripeAccount", Str "acct_test")])
  /\ CreateStripeCheckoutSession.handler Desk.env Desk.sessions_create
       (Desk.post Desk.checkout_request) Sample.empty
     = CreateStripeCheckoutSession.handler Desk.env Desk.sessions_create_or_test
         (Desk.post Desk.checkout_request) Sample.empty.
Proof.
  split; [discriminate|].
  apply (checkout_handler_asks_the_provider_once Desk.env Desk.sessions_create
           Desk.sessions_create_or_test (Desk.post Desk.checkout_request) Sample.empty).
  intros parsed _ [= <-]. reflexivity.
Defined.



(** ** The account-link functions *)

(** X15.  The two account-link functions always answer, with 405, 200 or
    400, and leave no trace: nothing is logged, not even a failure.  Their
    headers never depend on the request: [populateCorsHeaders] is called
    without an origin, so [Access-Control-Allow-Origin] is [null] unless the
    configured list has an empty entry, and is never a non-empty origin of
    that list. *)
Theorem link_handler_answers env allowOriginUris accountLinks_create link_type event w :
  exists r,
    AccountLink.handler env allowOriginUris accountLinks_create link_type event w
    = (Returned r, w)
    /\ In (cors_statusCode r) [405; 200; 400]%Z
    /\ (cors_statusCode r = 405%Z <-> httpMethod event <> Str "POST")
    /\ cors_headers r = Utils.populateCorsHeaders allowOriginUris ""
    /\ get_opt (Obj (cors_headers r)) "Access-Control-Allow-Origin"
       = Str (if Utils.includes allowOriginUris "" then "" else "null")
    /\ forall origin,
         origin <> "" -> origin <> "null" ->
         get_opt (Obj (cors_headers r)) "Access-Control-Allow-Origin" <> Str origin.
Proof.
  assert (forall origin,
            origin <> "" -> origin <> "null" ->
            get_opt (Obj (Utils.populateCorsHeaders allowOriginUris ""))
              "Access-Control-Allow-Origin" <> Str origin) as Hnever.
  { intros origin H1 H2. cbn. destruct (Utils.includes allowOriginUris "");
      intros [= <-]; congruence. }
  assert (get_opt (Obj (Utils.populateCorsHeaders allowOriginUris ""))
            "Access-Control-Allow-Origin"
          = Str (if Utils.includes allowOriginUris "" then "" else "null")) as Horigin.
  { cbn. now destruct (Utils.includes allowOriginUris ""). }
  unfold_link.
  destruct (strict_eq (httpMethod event) (Str "POST")) eqn:Hmethod; cbn [negb].
  - apply strict_eq_str in Hmethod.
    assert (forall status,
              status <> 405%Z ->
              (status = 405%Z <-> httpMethod event <> Str "POST")) as Hother
      by (intros status Hs; split; [intros ->; congruence|congruence]).
    destruct (JSON_parse (event_body event)) as [parsed|err].
    + destruct (destructure parsed "accountId") as [checked|err].
      * destruct (accountLinks_create _) as [link|err].
        -- destruct (get link "url") as [url|err];
             (eexists; split; [reflexivity|];
              split; [cbn; tauto|]; split; [now apply Hother|];
              split; [reflexivity|]; split; [exact Horigin|exact Hnever]).
        -- eexists; split; [reflexivity|].
           split; [cbn; tauto|]; split; [now apply Hother|].
           split; [reflexivity|]; split; [exact Horigin|exact Hnever].
      * eexists; split; [reflexivity|].
        split; [cbn; tauto|]; split; [now apply Hother|].
        split; [reflexivity|]; split; [exact Horigin|exact Hnever].
    + eexists; split; [reflexivity|].
      split; [cbn; tauto|]; split; [now apply Hother|].
      split; [reflexivity|]; split; [exact Horigin|exact Hnever].
  - eexists; split; [reflexivity|].
    split; [cbn; tauto|]. split.
    + split; [|reflexivity]. intros _ H. apply strict_eq_str in H. congruence.
    + split; [reflexivity|]; split; [exact Horigin|exact Hnever].
Qed.

(** X16.  An account-link function answers 200 only after the provider
    made a link for the [accountId] of the parsed body, and then hands out
    that link's [url].  The request it makes passes the environment's
    [STRIPE_RETURN_URL] as [refresh_url] and its [STRIPE_REFRESH_URL] as
    [return_url]. *)
Theorem link_success_comes_from_the_provider
    env allowOriginUris accountLinks_create link_type event w r w' :
  AccountLink.handler env allowOriginUris accountLinks_create link_type event w
  = (Returned r, w') ->
  cors_statusCode r = 200%Z ->
  httpMethod event = Str "POST"
  /\ exists parsed link,
       JSON_parse (event_body event) = Returned parsed
       /\ accountLinks_create
            (Obj [("account", get_opt parsed "accountId");
                  ("refresh_url", env_value (STRIPE_RETURN_URL env));
                  ("return_url", env_value (STRIPE_REFRESH_URL env));
                  ("type", Str link_type)])
          = Returned link
       /\ cors_body r = JSON_stringify (Obj [("url", get_opt link "url")]).
Proof.
  unfold_link.
  destruct (strict_eq (httpMethod event) (Str "POST")) eqn:Hmethod; cbn [negb].
  - apply strict_eq_str in Hmethod.
    destruct (JSON_parse (event_body event)) as [parsed|err];
      [|intros [= <- _]; discriminate].
    destruct (destructure parsed "accountId") as [checked|err] eqn:Hchecked;
      [|intros [= <- _]; discriminate].
    assert (checked = parsed) as -> by (destruct parsed; now inversion Hchecked).
    destruct (accountLinks_create _) as [link|err] eqn:Hlink;
      [|intros [= <- _]; discriminate].
    destruct (get link "url") as [url|err] eqn:Hurl;
      [|intros [= <- _]; discriminate].
    intros [= <- _] _. split; [exact Hmethod|].
    exists parsed, link. split; [reflexivity|]. split; [exact Hlink|].
    cbn [cors_body]. destruct link; inversion Hurl; reflexivity.
  - intros [= <- _]. discriminate.
Qed.

Lemma link_success_comes_from_the_provider_witness :
  fst (LinkStripeAccount.handler Desk.env Desk.origins Desk.accountLinks_create
         (Desk.post (Obj [("accountId", Str "acct_1")])) Sample.empty)
  = Returned {| cors_statusCode := 200;
                cors_headers := Utils.populateCorsHeaders Desk.origins "";
                cors_body :=
                  JsonText (Obj [("url", Str "https://connect.test/link_1")]) |}
  /\ httpMethod (Desk.post (Obj [("accountId", Str "acct_1")])) = Str "POST".
Proof.
  split; [reflexivity|].
  apply (link_success_comes_from_the_provider Desk.env Desk.origins
           Desk.accountLinks_create "account_onboarding"
           (Desk.post (Obj [("accountId", Str "acct_1")])) Sample.empty _ _ eq_refl
           eq_refl).
Defined.

(** The bank-login function on a request without a body: the failed
    destructuring is answered with 400 and leaves no log line. *)
Example bank_login_link_without_body :
  FetchStripeBankLoginLink.handler Desk.env Desk.origins Desk.accountLinks_create
    (Desk.post Null) Sample.empty
  = (Returned
       {| cors_statusCode := 400;
          cors_headers :=
            [("Access-Control-Allow-Origin", Str "null");
             ("Access-Control-Allow-Methods", Str "POST, OPTIONS");
             ("Access-Control-Allow-Headers", Str "Content-Type")];
          cors_body :=
            JsonText
              (Obj [("error",
                     Str "Cannot destructure property 'accountId' of 'JSON.parse(...)' as it is null.")]) |},
     Sample.empty).
Proof. reflexivity. Qed.

(** ** The service-account key *)

Section private_key.
Import SendAutomaticReminders.

Lemma has_escaped_newline_cons a t :
  has_escaped_newline (String a t)
  = match t with
    | String b _ => Ascii.eqb a backslash && Ascii.eqb b letter_n
    | EmptyString => false
    end || has_escaped_newline t.
Proof. destruct t as [|b t]; reflexivity. Qed.

(** The first character after the first replacement is the original one or
    a line feed. *)
Lemma replace_escaped_newline_head b s :
  exists c t,
    replace_escaped_newline (String b s) = String c t
    /\ (c = b \/ c = line_feed).
Proof.
  destruct s as [|c s]; cbn [replace_escaped_newline].
  - exists b, EmptyString. auto.
  - destruct (Ascii.eqb b backslash && Ascii.eqb c letter_n); eauto.
Qed.

Lemma replace_escaped_newline_clean s :
  has_escaped_newline (replace_escaped_newline s) = false
  /\ forall a, has_escaped_newline (replace_escaped_newline (String a s)) = false.
Proof.
  induction s as [|b s [IHs IHcons]].
  - split; [reflexivity|]. intros a. reflexivity.
  - split; [apply IHcons|]. intros a.
    change (replace_escaped_newline (String a (String b s)))
      with (if Ascii.eqb a backslash && Ascii.eqb b letter_n
            then String line_feed (replace_escaped_newline s)
            else String a (replace_escaped_newline (String b s))).
    destruct (Ascii.eqb a backslash && Ascii.eqb b letter_n) eqn:Hmatch.
    + rewrite has_escaped_newline_cons, IHs.
      destruct (replace_escaped_newline s); reflexivity.
    + rewrite has_escaped_newline_cons, (IHcons b), orb_false_r.
      destruct (replace_escaped_newline_head b s) as (c & t & -> & [->| ->]).
      * exact Hmatch.
      * now rewrite andb_false_r.
Qed.

Lemma replace_twice_escaped_newline_id t :
  has_escaped_newline t = false -> replace_twice_escaped_newline t = t.
Proof.
  induction t as [|a t IH]; [reflexivity|].
  rewrite has_escaped_newline_cons. intros [Hhere Hrest]%orb_false_elim.
  specialize (IH Hrest).
  destruct t as [|b [|c rest]].
  - reflexivity.
  - reflexivity.
  - rewrite has_escaped_newline_cons in Hrest.
    apply orb_false_elim in Hrest as [Hnext _].
    change (replace_twice_escaped_newline (String a (String b (String c rest))))
      with (if Ascii.eqb a backslash && Ascii.eqb b backslash && Ascii.eqb c letter_n
            then String line_feed (replace_twice_escaped_newline rest)
            else String a (replace_twice_escaped_newline (String b (String c rest)))).
    rewrite <- andb_assoc, Hnext, andb_false_r. now rewrite IH.
Qed.

End private_key.

(** X17.  In the private key handed to the credential the second
    replacement never changes anything: after every backslash-[n] has become
    a line feed, no backslash is followed by [n] any more, so there is no
    doubly escaped line feed left to replace, and repeating the whole
    unescaping changes nothing either. *)
Theorem second_replacement_is_idle key :
  SendAutomaticReminders.privateKey key
  = SendAutomaticReminders.replace_escaped_newline key
  /\ SendAutomaticReminders.has_escaped_newline (SendAutomaticReminders.privateKey key)
     = false
  /\ SendAutomaticReminders.privateKey (SendAutomaticReminders.privateKey key)
     = SendAutomaticReminders.privateKey key.
Proof.
  assert (SendAutomaticReminders.privateKey key
          = SendAutomaticReminders.replace_escaped_newline key) as Hfirst.
  { unfold SendAutomaticReminders.privateKey.
    apply replace_twice_escaped_newline_id, replace_escaped_newline_clean. }
  assert (SendAutomaticReminders.has_escaped_newline
            (SendAutomaticReminders.privateKey key) = false) as Hclean.
  { rewrite Hfirst. apply replace_escaped_newline_clean. }
  split; [exact Hfirst|]. split; [exact Hclean|].
  rewrite Hfirst in *.
  unfold SendAutomaticReminders.privateKey.
  rewrite (replace_twice_escaped_newline_id
             (SendAutomaticReminders.replace_escaped_newline
                (SendAutomaticReminders.replace_escaped_newline key)))
    by apply replace_escaped_newline_clean.
  clear Hfirst.
  remember (SendAutomaticReminders.replace_escaped_newline key) as t eqn:Ht. clear Ht.
  revert Hclean. induction t as [|a t IH]; [reflexivity|].
  rewrite has_escaped_newline_cons. intros [Hhere Hrest]%orb_false_elim.
  destruct t as [|b rest]; [reflexivity|].
  change (SendAutomaticReminders.replace_escaped_newline (String a (String b rest)))
    with (if Ascii.eqb a SendAutomaticReminders.backslash
             && Ascii.eqb b SendAutomaticReminders.letter_n
          then String SendAutomaticReminders.line_feed
                 (SendAutomaticReminders.replace_escaped_newline rest)
          else String a (SendAutomaticReminders.replace_escaped_newline (String b rest))).
  rewrite Hhere. now rewrite IH.
Qed.
